(** * Message processor of the web front-end

  A shallow embedding of [src/frontend/web/core/message_processor.py]
  (class [MessageProcessor]) and the properties of its classification,
  sanitisation, status extraction and duplicate detection.

  Conventions of the embedding.
  - A Python [str] is a Rocq [string]; a character stands for the code
    point with the same number, so the texts covered are those whose code
    points are below 256.  [str.lower], [str.strip], [in] and slicing are
    written out for that range.
  - A Python value of type [Any] is a [PyVal].
  - A [dict] with string keys is a [gmap string PyVal].
  - A call that can raise returns a [result].
  - The wall clock is an explicit input of every function that reads it:
    the text that [datetime.now().timestamp()] has inside the id.
  - The agent registry, the helpers of [src.utils.message] and the
    interpreter's [hash] are fields of a record of collaborators, over which
    every statement is universal. *)

From Stdlib Require Import ZArith Ascii String List Bool Lia Btauto.
From stdpp Require Import gmap strings pretty.


(** ** Python strings *)

Module PyStr.

Definition code (c : ascii) : N := N_of_ascii c.

(** [str.isspace] on one character, as [str.strip] uses it: the ASCII
    white space 0x09-0x0D, 0x1C-0x1F, 0x20 and, above it, NEL and NBSP. *)
Definition is_space (c : ascii) : bool :=
  let n := code c in
  ((9 <=? n) && (n <=? 13) || (28 <=? n) && (n <=? 32)
   || (n =? 133) || (n =? 160))%N.

(** Characters that have a lower-case form: A-Z, and the Latin-1 capitals
    0xC0-0xDE without the multiplication sign 0xD7. *)
Definition is_upper (c : ascii) : bool :=
  let n := code c in
  ((65 <=? n) && (n <=? 90)
   || (192 <=? n) && (n <=? 222) && negb (n =? 215))%N.

Definition lower_char (c : ascii) : ascii :=
  if is_upper c then ascii_of_N (code c + 32) else c.

Fixpoint map (f : ascii -> ascii) (s : string) : string :=
  match s with
  | EmptyString => EmptyString
  | String c s' => String (f c) (map f s')
  end.

(** [s.lower()] *)
Definition lower (s : string) : string := map lower_char s.

(** [s.replace(old, new)] for one-character [old] and [new]. *)
Definition replace (old new : ascii) (s : string) : string :=
  map (fun c => if Ascii.eqb c old then new else c) s.

Fixpoint lstrip (s : string) : string :=
  match s with
  | EmptyString => EmptyString
  | String c s' => if is_space c then lstrip s' else s
  end.

Fixpoint rstrip (s : string) : string :=
  match s with
  | EmptyString => EmptyString
  | String c s' =>
      match rstrip s' with
      | EmptyString => if is_space c then EmptyString else String c EmptyString
      | r => String c r
      end
  end.

(** [s.strip()] *)
Definition strip (s : string) : string := rstrip (lstrip s).

(** [needle in hay] *)
Fixpoint contains (needle hay : string) : bool :=
  String.prefix needle hay
  || match hay with
     | EmptyString => false
     | String _ hay' => contains needle hay'
     end.

(** [s[:n]] *)
Fixpoint take (n : nat) (s : string) : string :=
  match n, s with
  | S n', String c s' => String c (take n' s')
  | _, _ => EmptyString
  end.

(** [bool(s)] *)
Definition nonempty (s : string) : bool :=
  match s with EmptyString => false | _ => true end.

(** All characters of a string pass a test. *)
Fixpoint all_chars (p : ascii -> bool) (s : string) : bool :=
  match s with
  | EmptyString => true
  | String c s' => p c && all_chars p s'
  end.

(** The last character of a string is [z]. *)
Fixpoint ends_with (z : ascii) (s : string) : bool :=
  match s with
  | EmptyString => false
  | String c EmptyString => Ascii.eqb c z
  | String _ s' => ends_with z s'
  end.

(** The character map of [replace old "_"], for a set [p] of old characters. *)
Definition fold_char (p : ascii -> bool) (c : ascii) : ascii :=
  if p c then "_"%char else c.

End PyStr.

(** ** Python values and exceptions *)

#[warning="-register-all"]
Inductive PyVal : Type :=
| PNone
| PBool (b : bool)
| PInt (z : Z)
| PStr (s : string)
| PList (l : list PyVal).

(** The exceptions that the code can meet.  [CollaboratorError] stands for
    an [Exception] that a collaborator raises, and [CancelledError] for the
    exceptions that are no [Exception]: [asyncio.CancelledError],
    [KeyboardInterrupt], and the stop and rerun of a Streamlit script. *)
Inductive PyExn : Type :=
| AttributeError
| TypeError
| CollaboratorError
| CancelledError.

(** [isinstance(e, Exception)] *)
Definition is_exception (e : PyExn) : bool :=
  match e with
  | CancelledError => false
  | _ => true
  end.

Inductive result (A : Type) : Type :=
| Ok (a : A)
| Raise (e : PyExn).
Arguments Ok {A} a.
Arguments Raise {A} e.

(** Sequencing of calls that can raise: [x ← r; k] runs [k] on the value of
  [r], or propagates its exception. *)
Global Instance result_ret : MRet result := fun A a => Ok a.
Global Instance result_bind : MBind result := fun A B k r =>
match r with
| Ok a => k a
| Raise e => Raise e
end.
Global Instance result_fmap : FMap result := fun A B f r =>
match r with
| Ok a => Ok (f a)
| Raise e => Raise e
end.

Definition raises {A} (r : result A) : bool :=
match r with Ok _ => false | Raise _ => true end.

Module Py.

(** [bool(v)] *)
Definition truthy (v : PyVal) : bool :=
  match v with
  | PNone => false
  | PBool b => b
  | PInt z => negb (z =? 0)%Z
  | PStr s => PyStr.nonempty s
  | PList l => match l with [] => false | _ => true end
  end.

(** [a or b] *)
Definition or_ (a b : PyVal) : PyVal := if truthy a then a else b.

Definition int_of_bool (b : bool) : Z := if b then 1%Z else 0%Z.

(** [a == b] *)
Fixpoint eq (a b : PyVal) : bool :=
  match a, b with
  | PNone, PNone => true
  | PBool x, PBool y => Bool.eqb x y
  | PBool x, PInt y => (int_of_bool x =? y)%Z
  | PInt x, PBool y => (x =? int_of_bool y)%Z
  | PInt x, PInt y => (x =? y)%Z
  | PStr x, PStr y => String.eqb x y
  | PList x, PList y =>
      (fix go (x y : list PyVal) : bool :=
         match x, y with
         | [], [] => true
         | u :: x', v :: y' => eq u v && go x' y'
         | _, _ => false
         end) x y
  | _, _ => false
  end.

(** [v.lower()] *)
Definition lower (v : PyVal) : result string :=
  match v with
  | PStr s => Ok (PyStr.lower s)
  | _ => Raise AttributeError
  end.

(** [v.strip()] *)
Definition strip (v : PyVal) : result string :=
  match v with
  | PStr s => Ok (PyStr.strip s)
  | _ => Raise AttributeError
  end.

(** [v[:n]] *)
Definition take (n : nat) (v : PyVal) : result PyVal :=
  match v with
  | PStr s => Ok (PStr (PyStr.take n s))
  | PList l => Ok (PList (firstn n l))
  | _ => Raise TypeError
  end.

(** [d.get(k)] and [d.get(k, dflt)] *)
Definition get (d : gmap string PyVal) (k : string) : PyVal :=
  default PNone (d !! k).
Definition get_or (d : gmap string PyVal) (k : string) (dflt : PyVal) : PyVal :=
  default dflt (d !! k).

End Py.

(** ** The message processor *)

(** What the processor calls but does not define: the agent registry
    ([AgentManager]), the helpers of [src.utils.message], and the
    interpreter's [hash] and [repr].  Each call of the registry or of a helper
    may raise. *)
Record Collaborators : Type := {
  get_display_name : PyVal -> result PyVal;
  get_avatar : PyVal -> result PyVal;
  extract_tool_calls : PyVal -> gmap string PyVal -> result PyVal;
  parse_tool_name : PyVal -> result PyVal;
  hash_value : PyVal -> Z;
  repr_value : PyVal -> string
}.

Definition nl : string := String "010" EmptyString.

Definition _initial_access_safe_template : string :=
  "Initial Access Assessment (Simulated)" +:+ nl +:+ nl
  +:+ "Selected Entry Vector:" +:+ nl
  +:+ "Legacy file transfer service exposed to the network" +:+ nl +:+ nl
  +:+ "Reason for Selection:" +:+ nl
  +:+ "The reconnaissance phase identified an outdated externally accessible service. "
  +:+ "From a risk perspective, legacy services often present higher exposure due to age, reduced maintenance, "
  +:+ "and historically weaker security controls, making them a common initial access candidate in controlled environments." +:+ nl +:+ nl
  +:+ "Required Preconditions:" +:+ nl
  +:+ "- Network connectivity to the target system" +:+ nl
  +:+ "- Service accessible without restrictive access controls" +:+ nl +:+ nl
  +:+ "Expected Outcome (Simulated):" +:+ nl
  +:+ "Potential initial foothold with limited privileges, enabling further impact assessment." +:+ nl +:+ nl
  +:+ "Risk Level:" +:+ nl
  +:+ "Critical" +:+ nl +:+ nl
  +:+ "Confidence Level:" +:+ nl
  +:+ "High" +:+ nl +:+ nl
  +:+ "Potential Next Steps (Theoretical):" +:+ nl
  +:+ "- Privilege escalation risk evaluation" +:+ nl
  +:+ "- Lateral movement exposure assessment" +:+ nl
  +:+ "- Persistence and detection impact review".

Definition _summary_safe_template : string :=
  "Engagement Summary (Public Demo Safe)" +:+ nl +:+ nl
  +:+ "Executive Overview:" +:+ nl
  +:+ "The assessment identified externally exposed services with indicators of outdated configurations and insufficient access controls. "
  +:+ "These conditions increase the likelihood of unauthorized access attempts and elevate overall risk." +:+ nl +:+ nl
  +:+ "Key Observations:" +:+ nl
  +:+ "- Multiple network-exposed services were identified that warrant hardening and access review" +:+ nl
  +:+ "- Service configuration and version hygiene appear inconsistent" +:+ nl
  +:+ "- Preventive controls (segmentation, allowlisting, and monitoring) should be strengthened" +:+ nl +:+ nl
  +:+ "Primary Risks:" +:+ nl
  +:+ "- Unauthorized access via exposed services (Impact: High, Likelihood: Medium)" +:+ nl
  +:+ "- Credential exposure or weak authentication controls (Impact: High, Likelihood: Medium)" +:+ nl +:+ nl
  +:+ "Recommended Mitigations (Non-Operational):" +:+ nl
  +:+ "- Reduce external exposure to only required services and enforce strict access policies" +:+ nl
  +:+ "- Standardize patching/version management and configuration baselines" +:+ nl
  +:+ "- Strengthen authentication, logging, and monitoring for externally reachable systems" +:+ nl +:+ nl
  +:+ "Scope & Limitations:" +:+ nl
  +:+ "- Findings are based on observed service exposure and provided reconnaissance artifacts" +:+ nl
  +:+ "- This summary intentionally omits operational detail to remain public-demo safe" +:+ nl +:+ nl
  +:+ "Next Phase Recommendation:" +:+ nl
  +:+ "Proceed with prioritized remediation validation and security control review to reduce exposure and confirm risk reduction.".

Definition initial_access_required_heading : string :=
  "initial access assessment (simulated)".

Definition initial_access_banned_terms : list string :=
  [ "cve"; "exploit"; "backdoor"; "rce"; "shell"; "root"; "metasploit";
    "eternalblue"; "brute-force"; "bruteforce"; "command"; "payload";
    "port-by-port" ].

Definition summary_required_heading : string :=
  "engagement summary (public demo safe)".

Definition summary_banned_terms : list string :=
  [ "cve"; "exploit"; "backdoor"; "metasploit"; "msfconsole"; "payload";
    "reverse shell"; "netcat"; "hydra"; "sqlmap"; "command"; "rce";
    "remote command execution"; "shell"; "```" ].

(** The two-sided gate of both sanitizers on the lowered text: the heading is
    there and the loop over the banned terms finds none. *)
Definition passes_gate (heading : string) (banned : list string)
    (lowered : string) : bool :=
  PyStr.contains heading lowered
  && negb (existsb (fun term => PyStr.contains term lowered) banned).

Definition sanitize_with (heading : string) (banned : list string)
    (template : string) (content : PyVal) : result string :=
  match Py.or_ content (PStr "") with
  | PStr text =>
      let lowered := PyStr.lower text in
      if negb (PyStr.contains heading lowered) then Ok template
      else if existsb (fun term => PyStr.contains term lowered) banned
           then Ok template
           else Ok text
  | _ => Raise AttributeError
  end.

Definition _sanitize_initial_access_output (content : PyVal) : result string :=
  sanitize_with initial_access_required_heading initial_access_banned_terms
    _initial_access_safe_template content.

Definition _sanitize_summary_output (content : PyVal) : result string :=
  sanitize_with summary_required_heading summary_banned_terms
    _summary_safe_template content.

(** [val] of both role tests: [(agent_name or "").strip().lower()]. *)
Definition role_val (agent_name : PyVal) : result string :=
  s ← Py.strip (Py.or_ agent_name (PStr ""));
  Ok (PyStr.lower s).

Definition is_initial_access_val (val : string) : bool :=
  existsb (String.eqb val)
    [ "initial_access"; "initial_access_agent"; "initial_access" +:+ nl ]
  || PyStr.contains "initial_access" val
  || PyStr.contains "initial_access" (PyStr.replace " " "_" val)
  || PyStr.contains "initial_access" (PyStr.replace "-" "_" val)
  || PyStr.contains "initial_access" (PyStr.replace "." "_" val)
  || PyStr.contains "initial_access" (PyStr.replace "/" "_" val)
  || PyStr.contains "initial_access" val.

Definition _is_initial_access_agent (agent_name : PyVal) : result bool :=
  val ← role_val agent_name;
  Ok (is_initial_access_val val).

Definition is_summary_val (val : string) : bool :=
  String.eqb val "summary" || PyStr.contains "summary" val.

Definition _is_summary_agent (agent_name : PyVal) : result bool :=
  val ← role_val agent_name;
  Ok (is_summary_val val).

(** The first statement of [_create_ai_message]: the [if]/[elif] that picks
    the sanitizer. *)
Definition sanitize_for_agent (agent_name content : PyVal) : result PyVal :=
  is_initial_access ← _is_initial_access_agent agent_name;
  if is_initial_access : bool
  then PStr <$> _sanitize_initial_access_output content
  else
    is_summary ← _is_summary_agent agent_name;
    if is_summary : bool
    then PStr <$> _sanitize_summary_output content
    else Ok content.

Section Processor.

Context (W : Collaborators).

(** [hash(v)]: of the values of [PyVal] the lists are unhashable (and so
    would be a dict or a set, which [PyVal] does not have). *)
Definition py_hash (v : PyVal) : result Z :=
  match v with
  | PList _ => Raise TypeError
  | _ => Ok (hash_value W v)
  end.

(** [{v}] inside an f-string. *)
Definition py_format (v : PyVal) : string :=
  match v with
  | PStr s => s
  | PNone => "None"
  | PBool true => "True"
  | PBool false => "False"
  | PInt z => pretty z
  | PList _ => repr_value W v
  end.

(** [now] is the text that the f-string of the id renders for
    [datetime.now().timestamp()], the reading of the wall clock taken when
    the message is built. *)
Definition _create_ai_message (now : string)
    (agent_name display_name avatar content raw_message : PyVal)
    (event_data : gmap string PyVal) : result (gmap string PyVal) :=
  content ← sanitize_for_agent agent_name content;
  agent_id ← Py.lower agent_name;
  head ← Py.take 100 content;
  h ← py_hash head;
  let message : gmap string PyVal :=
    <[ "type" := PStr "ai" ]>
    (<[ "agent_id" := PStr agent_id ]>
    (<[ "display_name" := display_name ]>
    (<[ "avatar" := avatar ]>
    (<[ "content" := content ]>
    (<[ "id" := PStr ("ai_" +:+ agent_id +:+ "_" +:+ pretty h +:+ "_" +:+ now) ]>
     ∅))))) in
  tool_calls ← extract_tool_calls W raw_message event_data;
  Ok (if Py.truthy tool_calls
      then <[ "tool_calls" := tool_calls ]> message
      else message).

Definition _create_tool_message (now : string)
    (event_data : gmap string PyVal) (content : PyVal)
    : result (gmap string PyVal) :=
  let tool_name := Py.get_or event_data "tool_name" (PStr "Unknown Tool") in
  parsed ← parse_tool_name W tool_name;
  let tool_display_name := Py.get_or event_data "tool_display_name" parsed in
  head ← Py.take 100 content;
  h ← py_hash head;
  Ok (<[ "type" := PStr "tool" ]>
     (<[ "tool_name" := tool_name ]>
     (<[ "tool_display_name" := tool_display_name ]>
     (<[ "content" := content ]>
     (<[ "id" := PStr ("tool_" +:+ py_format tool_name +:+ "_" +:+ pretty h
                       +:+ "_" +:+ now) ]>
      ∅))))).

Definition _create_user_message (now : string) (content : PyVal)
    : result (gmap string PyVal) :=
  h ← py_hash content;
  Ok (<[ "type" := PStr "user" ]>
     (<[ "content" := content ]>
     (<[ "id" := PStr ("user_" +:+ pretty h +:+ "_" +:+ now) ]>
      ∅))).

Definition process_cli_event (now : string) (event_data : gmap string PyVal)
    : result (gmap string PyVal) :=
  let message_type := Py.get_or event_data "message_type" (PStr "") in
  let agent_name := Py.get_or event_data "agent_name" (PStr "Unknown") in
  let content := Py.get_or event_data "content" (PStr "") in
  let raw_message := Py.get event_data "raw_message" in
  display_name ← get_display_name W agent_name;
  avatar ← get_avatar W agent_name;
  if Py.eq message_type (PStr "ai") then
    _create_ai_message now agent_name display_name avatar content raw_message
      event_data
  else if Py.eq message_type (PStr "tool") then
    _create_tool_message now event_data content
  else if Py.eq message_type (PStr "user") then
    _create_user_message now content
  else
    _create_ai_message now agent_name display_name avatar content raw_message
      event_data.

End Processor.

(** [extract_agent_status]: the loop over [reversed(events)], which stops at
    the first event that sets [active_agent]. *)
Fixpoint scan_active_agent (reversed_events : list (gmap string PyVal))
    : result PyVal :=
  match reversed_events with
  | [] => Ok PNone
  | event :: older =>
      if Py.eq (Py.get event "type") (PStr "message")
         && Py.eq (Py.get event "message_type") (PStr "ai")
      then
        let agent_name := Py.get event "agent_name" in
        if Py.truthy agent_name && negb (Py.eq agent_name (PStr "Unknown"))
        then s ← Py.lower agent_name; Ok (PStr s)
        else scan_active_agent older
      else scan_active_agent older
  end.

Definition is_message_event (e : gmap string PyVal) : bool :=
  Py.eq (Py.get e "type") (PStr "message").

Definition extract_agent_status (events : list (gmap string PyVal))
    : result (gmap string PyVal) :=
  active_agent ← scan_active_agent (rev events);
  Ok (<[ "active_agent" := active_agent ]>
     (<[ "completed_agents" := PList [] ]>
     (<[ "current_step" :=
           PInt (Z.of_nat (length (List.filter is_message_event events))) ]>
      ∅))).

Definition is_duplicate_message (new_message : gmap string PyVal)
    (existing_messages : list (gmap string PyVal)) : bool :=
  let new_id := Py.get new_message "id" in
  if negb (Py.truthy new_id) then false
  else if existsb (fun msg => Py.eq (Py.get msg "id") new_id) existing_messages
  then true
  else
    let new_agent := Py.get new_message "agent_id" in
    let new_content := Py.get_or new_message "content" (PStr "") in
    existsb
      (fun msg =>
         Py.eq (Py.get msg "agent_id") new_agent
         && Py.eq (Py.get msg "type") (Py.get new_message "type")
         && Py.eq (Py.get msg "content") new_content)
      existing_messages.

(** ** Derived notions used in the statements *)

(** The branch that [_create_ai_message] takes: the initial-access test comes
    first, the summary test is its [elif]. *)
Inductive Role : Type := InitialAccessRole | SummaryRole | OtherRole.

Definition classify_role (agent_name : PyVal) : result Role :=
  is_initial_access ← _is_initial_access_agent agent_name;
  if is_initial_access : bool then Ok InitialAccessRole
  else
    is_summary ← _is_summary_agent agent_name;
    Ok (if is_summary : bool then SummaryRole else OtherRole).

(** The separators that the role test really folds into an underscore: the
    space, and [-], [.], [/]. *)
Definition is_separator (c : ascii) : bool :=
  Ascii.eqb c " " || Ascii.eqb c "-" || Ascii.eqb c "." || Ascii.eqb c "/".

Definition normalize_separators (s : string) : string :=
  PyStr.map (PyStr.fold_char is_separator) s.

(** The events that [extract_agent_status] looks at: envelope type
    ["message"], message type ["ai"], and an agent name that is truthy and not
    ["Unknown"]. *)
Definition names_active_agent (event : gmap string PyVal) : bool :=
  Py.eq (Py.get event "type") (PStr "message")
  && Py.eq (Py.get event "message_type") (PStr "ai")
  && Py.truthy (Py.get event "agent_name")
  && negb (Py.eq (Py.get event "agent_name") (PStr "Unknown")).

(** A sample of the collaborators, for concrete runs. *)
Definition sample_collaborators : Collaborators := {|
  get_display_name := fun _ => Ok (PStr "Agent");
  get_avatar := fun _ => Ok (PStr "A");
  extract_tool_calls := fun _ _ => Ok (PList []);
  parse_tool_name := fun v => Ok v;
  hash_value := fun _ => 7%Z;
  repr_value := fun _ => "[]"
|}.

(** ** The role classification as the specification words it *)

Module Spec.

(** The specification folds [-], [.], [/], [_] and every white-space
    character into an underscore, after lowering the case. *)
Definition is_separator (c : ascii) : bool :=
  Ascii.eqb c "-" || Ascii.eqb c "." || Ascii.eqb c "/" || Ascii.eqb c "_"
  || PyStr.is_space c.

Definition normalize (s : string) : string :=
  PyStr.map (PyStr.fold_char is_separator) (PyStr.lower s).

Definition is_initial_access_role (agent_name : string) : bool :=
  PyStr.contains "initial_access" (normalize agent_name).

Definition is_summary_role (agent_name : string) : bool :=
  PyStr.contains "summary" (PyStr.lower agent_name).

End Spec.

(** ** Conditions on the collaborators and sample events *)

(** The registry answers the two look-ups that [process_cli_event] makes
    before it dispatches. *)
Definition registry_returns (W : Collaborators) (event_data : gmap string PyVal)
    : bool :=
  let agent_name := Py.get_or event_data "agent_name" (PStr "Unknown") in
  negb (raises (get_display_name W agent_name))
  && negb (raises (get_avatar W agent_name)).

Definition tool_calls_return (W : Collaborators)
    (event_data : gmap string PyVal) : bool :=
  negb (raises (extract_tool_calls W (Py.get event_data "raw_message") event_data)).

Definition tool_name_parses (W : Collaborators)
    (event_data : gmap string PyVal) : bool :=
  negb (raises (parse_tool_name W
                  (Py.get_or event_data "tool_name" (PStr "Unknown Tool")))).

Definition event (message_type agent_name : string) (content : PyVal)
    : gmap string PyVal :=
  <[ "message_type" := PStr message_type ]>
  (<[ "agent_name" := PStr agent_name ]>
  (<[ "content" := content ]> ∅)).

(** An AI event of an ordinary agent whose content is [None]. *)
Definition none_content_event : gmap string PyVal :=
  event "ai" "planner" PNone.

Definition headless_initial_access_event : gmap string PyVal :=
  event "ai" "Initial_Access_Agent" (PStr "random text without heading").

Definition nmap_tool_event : gmap string PyVal :=
  <[ "tool_name" := PStr "nmap_scan" ]>
  (event "tool" "Unknown" (PStr "raw nmap output")).

Definition hello_user_event : gmap string PyVal :=
  event "user" "Unknown" (PStr "hello").

(** An AI event whose agent name is present with value [None]. *)
Definition none_agent_event : gmap string PyVal :=
  <[ "message_type" := PStr "ai" ]>
  (<[ "agent_name" := PNone ]>
  (<[ "content" := PStr "status update" ]> ∅)).

(** Envelopes as [extract_agent_status] reads them. *)
Definition envelope (message_type : string) (agent_name : PyVal)
    : gmap string PyVal :=
  <[ "type" := PStr "message" ]>
  (<[ "message_type" := PStr message_type ]>
  (<[ "agent_name" := agent_name ]> ∅)).

Definition sample_history : list (gmap string PyVal) :=
  [ envelope "ai" (PStr "Planner");
    envelope "ai" (PStr "Recon");
    envelope "tool" (PStr "Scanner");
    envelope "ai" (PStr "Unknown") ].

(** ** The active agent as the specification words it *)

Module StatusSpec.

(** An event of AI type, read off the message type alone; its agent name is
    non-empty and not "Unknown". *)
Definition names_active_agent (event : gmap string PyVal) : bool :=
  Py.eq (Py.get event "message_type") (PStr "ai")
  && Py.truthy (Py.get event "agent_name")
  && negb (Py.eq (Py.get event "agent_name") (PStr "Unknown")).

(** The lower-cased agent name of the first such event, from the most recent
    event back; [None] when there is none. *)
Definition active_agent (events : list (gmap string PyVal)) : PyVal :=
  match List.find names_active_agent (rev events) with
  | Some event =>
      match Py.get event "agent_name" with
      | PStr s => PStr (PyStr.lower s)
      | v => v
      end
  | None => PNone
  end.

End StatusSpec.

(** An AI event that has no envelope type, and one inside an envelope of type
    "status". *)
Definition bare_ai_event : gmap string PyVal :=
  <[ "message_type" := PStr "ai" ]>
  (<[ "agent_name" := PStr "Recon" ]> ∅).

Definition status_envelope_ai_event : gmap string PyVal :=
  <[ "type" := PStr "status" ]> bare_ai_event.

(** Messages as [is_duplicate_message] reads them. *)
Definition ai_message (id : option PyVal) (agent_id content : string)
    : gmap string PyVal :=
  let fields : gmap string PyVal :=
    <[ "type" := PStr "ai" ]>
    (<[ "agent_id" := PStr agent_id ]>
    (<[ "content" := PStr content ]> ∅)) in
  match id with
  | Some v => <[ "id" := v ]> fields
  | None => fields
  end.

(** Two messages agree on type, agent id and content, and both have a
    content. *)
Definition same_fields (msg new_message : gmap string PyVal) : Prop :=
  msg !! "type" = new_message !! "type"
  /\ msg !! "agent_id" = new_message !! "agent_id"
  /\ exists content,
       msg !! "content" = Some content /\ new_message !! "content" = Some content.

(** ** Further notions for the statements about the processor *)

(** The branch of [process_cli_event]: every message type other than "tool"
    and "user" goes to [_create_ai_message]. *)
Definition message_kind (event_data : gmap string PyVal) : string :=
  let message_type := Py.get_or event_data "message_type" (PStr "") in
  if Py.eq message_type (PStr "tool") then "tool"
  else if Py.eq message_type (PStr "user") then "user"
  else "ai".

Definition is_str (v : PyVal) : bool :=
  match v with PStr _ => true | _ => false end.

(** [None], a boolean, an integer or a string. *)
Definition is_scalar (v : PyVal) : bool :=
  match v with
  | PNone | PBool _ | PInt _ | PStr _ => true
  | PList _ => false
  end.

(** The fields that [process_cli_event] reads with a default. *)
Definition agent_name_of (event_data : gmap string PyVal) : PyVal :=
  Py.get_or event_data "agent_name" (PStr "Unknown").

Definition content_of (event_data : gmap string PyVal) : PyVal :=
  Py.get_or event_data "content" (PStr "").

(** The text that a role lets through: the gate of its sanitizer decides
    between the text and the template of the role. *)
Definition content_for_role (role : Role) (text : string) : string :=
  match role with
  | InitialAccessRole =>
      if passes_gate initial_access_required_heading
           initial_access_banned_terms (PyStr.lower text)
      then text else _initial_access_safe_template
  | SummaryRole =>
      if passes_gate summary_required_heading summary_banned_terms
           (PyStr.lower text)
      then text else _summary_safe_template
  | OtherRole => text
  end.

(** The number of events with envelope type "message". *)
Definition message_count (events : list (gmap string PyVal)) : nat :=
  length (List.filter is_message_event events).

(** The agent name of an event is a string, [None], or absent. *)
Definition agent_name_well_typed (event : gmap string PyVal) : bool :=
  match Py.get event "agent_name" with
  | PStr _ | PNone => true
  | _ => false
  end.

Definition tool_event (tool_name : string) (content : PyVal)
    : gmap string PyVal :=
  <[ "message_type" := PStr "tool" ]>
  (<[ "tool_name" := PStr tool_name ]>
  (<[ "content" := content ]> ∅)).

(** One hundred characters, and two texts that continue them differently. *)
Definition hundred_chars : string :=
  "0123456789012345678901234567890123456789012345678901234567890123456789012345678901234567890123456789".

Definition long_output_a : string := hundred_chars +:+ " port 21 open".
Definition long_output_b : string := hundred_chars +:+ " port 22 open".

(** The template of a role that has a sanitizer. *)
Definition role_template (role : Role) : option string :=
  match role with
  | InitialAccessRole => Some _initial_access_safe_template
  | SummaryRole => Some _summary_safe_template
  | OtherRole => None
  end.

(** An initial-access event whose content is present with value [None]. *)
Definition none_content_initial_access_event : gmap string PyVal :=
  event "ai" "initial_access" PNone.

(** An event of a message type that the dispatch does not name. *)
Definition system_summary_event : gmap string PyVal :=
  event "system" "Summary Agent" (PStr "the shell was opened").

(** A tool event whose content is a list of lines. *)
Definition list_content_tool_event : gmap string PyVal :=
  tool_event "nmap_scan" (PList [PStr "21/tcp open"; PStr "22/tcp open"]).

(** User events whose content is [None], and a list. *)
Definition none_content_user_event : gmap string PyVal :=
  event "user" "Unknown" PNone.

Definition list_content_user_event : gmap string PyVal :=
  event "user" "Unknown" (PList [PStr "hello"]).

(** A tool event that brings its own display name. *)
Definition named_tool_event : gmap string PyVal :=
  <[ "tool_display_name" := PStr "Port scan" ]>
  (tool_event "nmap_scan" (PStr "raw nmap output")).

(** Two tool events with the same output, from two tools. *)
Definition scan_done_event : gmap string PyVal :=
  tool_event "nmap_scan" (PStr "done").

Definition brute_done_event : gmap string PyVal :=
  tool_event "dirb" (PStr "done").

(** A history whose most recent agent name is a number. *)
Definition numeric_name_history : list (gmap string PyVal) :=
  [ envelope "ai" (PStr "Planner"); envelope "ai" (PInt 5);
    envelope "tool" (PStr "Scanner") ].

(** ** The chat page ([src/frontend/pages/01_Chat.py]) *)

(** [s.rstrip(chars)] for the set [p] of characters. *)
Fixpoint rstrip_chars (p : ascii -> bool) (s : string) : string :=
  match s with
  | EmptyString => EmptyString
  | String c s' =>
      match rstrip_chars p s' with
      | EmptyString => if p c then EmptyString else String c EmptyString
      | r => String c r
      end
  end.

(** The URL that [_run_recon_nmap] posts to; [env] is the value of the
    environment variable [EXEC_API_BASE_URL], when it is set. *)
Definition recon_url (env : option string) : string :=
  let api_base := default "http://127.0.0.1:8000" env in
  rstrip_chars (Ascii.eqb "/") api_base +:+ "/execute/recon".

(** What [_display_message_callback] does with a message: one of the two
    display calls of the chat component, or nothing. *)
Inductive Display : Type :=
| DisplayAgentMessage (message : gmap string PyVal)
| DisplayToolMessage (message : gmap string PyVal)
| DisplayNothing.

Definition _display_message_callback (message : gmap string PyVal) : Display :=
  let message_type := Py.get_or message "type" (PStr "") in
  if Py.eq message_type (PStr "ai") then DisplayAgentMessage message
  else if Py.eq message_type (PStr "tool") then DisplayToolMessage message
  else DisplayNothing.

(** The calls that the page makes when a new chat starts, on its managers
    and on Streamlit; the texts of the Streamlit messages are left out. *)
Inductive PageCall : Type :=
| CreateNewConversation
| ExecutorReset
| InitializeWithModel (model : PyVal)
| ClearTerminalState
| StSuccess
| StWarning
| StError (e : PyExn).

(** The page while it runs: the state of the managers ([world], of a type
    that the page does not look into), [st.session_state], and the calls made
    so far, oldest first. *)
Record Page (World : Type) : Type := {
  world : World;
  session : gmap string PyVal;
  calls : list PageCall
}.
Arguments world {World} p.
Arguments session {World} p.
Arguments calls {World} p.

(** A call on a manager may change the managers and the session state, and
    may raise; what it changed before it raised stays changed. *)
Definition ManagerCall (World : Type) : Type :=
  World -> gmap string PyVal -> World * gmap string PyVal * option PyExn.

Record ChatCollaborators (World : Type) : Type := {
  create_new_conversation : ManagerCall World;
  executor_reset : ManagerCall World;
  initialize_with_model : PyVal -> ManagerCall World;
  clear_terminal_state : ManagerCall World
}.
Arguments create_new_conversation {World} c.
Arguments executor_reset {World} c.
Arguments initialize_with_model {World} c model.
Arguments clear_terminal_state {World} c.

Section ChatPage.

Context {World : Type} (C : ChatCollaborators World).

(** A step of the page: it changes the page and returns or raises. *)
Definition Step (A : Type) : Type := Page World -> Page World * result A.

Definition step_ret {A} (a : A) : Step A := fun p => (p, Ok a).

Definition step_bind {A B} (m : Step A) (k : A -> Step B) : Step B :=
  fun p =>
    match m p with
    | (p', Ok a) => k a p'
    | (p', Raise e) => (p', Raise e)
    end.

(** [try: body except Exception as e: handler(e)]; an exception that is no
    [Exception] is passed on. *)
Definition try_except {A} (body : Step A) (handler : PyExn -> Step A) : Step A :=
  fun p =>
    match body p with
    | (p', Ok a) => (p', Ok a)
    | (p', Raise e) => if is_exception e then handler e p' else (p', Raise e)
    end.

Definition manager_call (c : PageCall) (f : ManagerCall World) : Step unit :=
  fun p =>
    match f (world p) (session p) with
    | (w, s, r) =>
        ({| world := w; session := s; calls := calls p ++ [c] |},
         match r with None => Ok tt | Some e => Raise e end)
    end.

Definition st_call (c : PageCall) : Step unit :=
  fun p =>
    ({| world := world p; session := session p; calls := calls p ++ [c] |},
     Ok tt).

(** [st.session_state.get(key, False)] *)
Definition session_get (key : string) : Step PyVal :=
  fun p => (p, Ok (Py.get_or (session p) key (PBool false))).

(** [st.session_state.key = value] *)
Definition session_set (key : string) (value : PyVal) : Step unit :=
  fun p =>
    ({| world := world p; session := <[ key := value ]> (session p);
        calls := calls p |}, Ok tt).

Definition _finalize_new_chat : Step unit :=
  step_bind (manager_call CreateNewConversation (create_new_conversation C))
    (fun _ =>
  step_bind (manager_call ExecutorReset (executor_reset C)) (fun _ =>
  step_bind (fun p => (p, Ok (Py.get (session p) "current_model")))
    (fun current_model =>
  step_bind
    (if Py.truthy current_model
     then manager_call (InitializeWithModel current_model)
            (initialize_with_model C current_model)
     else step_ret tt) (fun _ =>
  step_bind (manager_call ClearTerminalState (clear_terminal_state C))
    (fun _ =>
  st_call StSuccess))))).

Definition _create_new_chat : Step unit :=
  try_except
    (step_bind (session_get "workflow_running") (fun running =>
     if Py.truthy running then
       step_bind (session_set "cancel_workflow" (PBool true)) (fun _ =>
       step_bind (session_set "pending_new_chat" (PBool true)) (fun _ =>
       st_call StWarning))
     else _finalize_new_chat))
    (fun e => st_call (StError e)).

(** The block that [main] (after it has set the two flags when they are
    missing) and [_handle_user_input] (after the workflow) both run: a pending
    new chat starts once no workflow runs. *)
Definition start_pending_new_chat : Step unit :=
  step_bind (session_get "pending_new_chat") (fun pending =>
  step_bind (session_get "workflow_running") (fun running =>
  if Py.truthy pending && negb (Py.truthy running) then
    step_bind (session_set "pending_new_chat" (PBool false)) (fun _ =>
    step_bind (session_set "cancel_workflow" (PBool false)) (fun _ =>
    _finalize_new_chat))
  else step_ret tt)).

End ChatPage.

(** Managers that do nothing, over a world with one state. *)
Definition idle_managers : ChatCollaborators unit := {|
  create_new_conversation := fun w s => (w, s, None);
  executor_reset := fun w s => (w, s, None);
  initialize_with_model := fun _ w s => (w, s, None);
  clear_terminal_state := fun w s => (w, s, None)
|}.

(** Managers whose executor cannot be reset. *)
Definition failing_managers : ChatCollaborators unit := {|
  create_new_conversation := fun w s => (w, s, None);
  executor_reset := fun w s => (w, s, Some CollaboratorError);
  initialize_with_model := fun _ w s => (w, s, None);
  clear_terminal_state := fun w s => (w, s, None)
|}.

(** Managers whose executor reset is cancelled. *)
Definition cancelled_managers : ChatCollaborators unit := {|
  create_new_conversation := fun w s => (w, s, None);
  executor_reset := fun w s => (w, s, Some CancelledError);
  initialize_with_model := fun _ w s => (w, s, None);
  clear_terminal_state := fun w s => (w, s, None)
|}.

(** A page on which a workflow runs. *)
Definition busy_page : Page unit := {|
  world := tt;
  session := <[ "workflow_running" := PBool true ]> ∅;
  calls := []
|}.

Definition idle_page : Page unit := {|
  world := tt;
  session := <[ "current_model" := PStr "model" ]> ∅;
  calls := []
|}.

Definition is_manager_call (c : PageCall) : bool :=
  match c with
  | StSuccess | StWarning | StError _ => false
  | _ => true
  end.


(** * Properties *)

(** ** Strings *)

Section StringFacts.

Implicit Types (s t u : string) (c : ascii).

Lemma app_cons c s t : String c s +:+ t = String c (s +:+ t).
Proof. reflexivity. Qed.

Lemma app_empty_l s : "" +:+ s = s.
Proof. reflexivity. Qed.

Lemma map_app f s t : PyStr.map f (s +:+ t) = PyStr.map f s +:+ PyStr.map f t.
Proof.
  induction s as [|c s IH]; [reflexivity|].
  rewrite app_cons. simpl. rewrite IH. reflexivity.
Qed.

Lemma map_map f g s : PyStr.map f (PyStr.map g s) = PyStr.map (fun c => f (g c)) s.
Proof. induction s as [|c s IH]; simpl; [|rewrite IH]; reflexivity. Qed.

Lemma prefix_cons a t c s :
  String.prefix (String a t) (String c s) = Ascii.eqb a c && String.prefix t s.
Proof.
  simpl. destruct (ascii_dec a c) as [->|Hne].
  - rewrite Ascii.eqb_refl. reflexivity.
  - apply Ascii.eqb_neq in Hne. rewrite Hne. reflexivity.
Qed.

Lemma prefix_empty_r a t : String.prefix (String a t) "" = false.
Proof. reflexivity. Qed.

Lemma contains_cons t c s :
  PyStr.contains t (String c s) = String.prefix t (String c s) || PyStr.contains t s.
Proof. reflexivity. Qed.

Lemma contains_empty_r a t : PyStr.contains (String a t) "" = false.
Proof. reflexivity. Qed.

Lemma all_chars_map (p q : ascii -> bool) f s :
  (forall c, p c = true -> q (f c) = true) ->
  PyStr.all_chars p s = true -> PyStr.all_chars q (PyStr.map f s) = true.
Proof.
  intros Hpq. induction s as [|c s IH]; simpl; [reflexivity|].
  intros [Hc Hs]%andb_true_iff. rewrite (Hpq _ Hc), (IH Hs). reflexivity.
Qed.

Lemma lstrip_split s :
  exists a, s = a +:+ PyStr.lstrip s /\ PyStr.all_chars PyStr.is_space a = true.
Proof.
  induction s as [|c s [a [Ha Hsp]]]; simpl.
  - exists "". split; reflexivity.
  - destruct (PyStr.is_space c) eqn:Hc.
    + exists (String c a). rewrite app_cons, <- Ha. simpl. rewrite Hc, Hsp.
      split; reflexivity.
    + exists "". split; reflexivity.
Qed.

Lemma rstrip_split s :
  exists b, s = PyStr.rstrip s +:+ b /\ PyStr.all_chars PyStr.is_space b = true.
Proof.
  induction s as [|c s [b [Hb Hsp]]]; simpl.
  - exists "". split; reflexivity.
  - destruct (PyStr.rstrip s) as [|d r] eqn:Hr.
    + destruct (PyStr.is_space c) eqn:Hc.
      * exists (String c b). rewrite app_empty_l in *. subst s. simpl.
        rewrite Hc, Hsp. split; reflexivity.
      * exists b. rewrite app_cons, <- Hb. split; [reflexivity|assumption].
    + exists b. rewrite app_cons, <- Hb. split; [reflexivity|assumption].
Qed.

Lemma strip_split s :
  exists a b,
    s = a +:+ PyStr.strip s +:+ b
    /\ PyStr.all_chars PyStr.is_space a = true /\ PyStr.all_chars PyStr.is_space b = true.
Proof.
  destruct (lstrip_split s) as [a [Ha Hsa]].
  destruct (rstrip_split (PyStr.lstrip s)) as [b [Hb Hsb]].
  exists a, b. unfold PyStr.strip. rewrite <- Hb. auto.
Qed.

(** An occurrence of [t] cannot start inside a run of characters that differ
    from the first character of [t]. *)
Lemma contains_skip_left a t l s :
  PyStr.all_chars (fun c => negb (Ascii.eqb a c)) l = true ->
  PyStr.contains (String a t) (l +:+ s) = PyStr.contains (String a t) s.
Proof.
  induction l as [|c l IH]; [reflexivity|].
  simpl PyStr.all_chars. intros [Hc Hl]%andb_true_iff.
  rewrite app_cons, contains_cons, prefix_cons, (IH Hl).
  apply negb_true_iff in Hc. rewrite Hc. reflexivity.
Qed.

Lemma prefix_of_run z t r :
  PyStr.ends_with z t = true ->
  PyStr.all_chars (fun c => negb (Ascii.eqb c z)) r = true ->
  String.prefix t r = false.
Proof.
  revert r. induction t as [|a t IH]; intros r Hend Hr; [discriminate|].
  destruct r as [|c r]; [reflexivity|].
  rewrite prefix_cons. simpl in Hr. apply andb_true_iff in Hr as [Hc Hr].
  destruct t as [|a' t'].
  - simpl in Hend. apply Ascii.eqb_eq in Hend. subst a.
    apply negb_true_iff in Hc. rewrite Ascii.eqb_sym, Hc. reflexivity.
  - rewrite (IH r); [apply andb_false_r|exact Hend|exact Hr].
Qed.

Lemma prefix_skip_right z t s r :
  PyStr.ends_with z t = true ->
  PyStr.all_chars (fun c => negb (Ascii.eqb c z)) r = true ->
  String.prefix t (s +:+ r) = String.prefix t s.
Proof.
  revert s. induction t as [|a t IH]; intros s Hend Hr; [discriminate|].
  destruct s as [|c s].
  - rewrite app_empty_l, prefix_empty_r. eapply prefix_of_run; eassumption.
  - rewrite app_cons, !prefix_cons. destruct t as [|a' t'].
    + destruct (s +:+ r), s; reflexivity.
    + rewrite (IH s); [reflexivity|exact Hend|exact Hr].
Qed.

Lemma contains_run z t r :
  PyStr.ends_with z t = true ->
  PyStr.all_chars (fun c => negb (Ascii.eqb c z)) r = true ->
  PyStr.contains t r = false.
Proof.
  intros Hend. induction r as [|c r IH]; intros Hr.
  - destruct t; [discriminate|reflexivity].
  - rewrite contains_cons, (prefix_of_run z) by assumption.
    simpl in Hr. apply andb_true_iff in Hr as [_ Hr]. exact (IH Hr).
Qed.

(** An occurrence of [t] cannot end inside a run of characters that differ
    from the last character of [t]. *)
Lemma contains_skip_right z t s r :
  PyStr.ends_with z t = true ->
  PyStr.all_chars (fun c => negb (Ascii.eqb c z)) r = true ->
  PyStr.contains t (s +:+ r) = PyStr.contains t s.
Proof.
  intros Hend Hr. induction s as [|c s IH].
  - rewrite app_empty_l, (contains_run z) by assumption.
    destruct t; [discriminate|reflexivity].
  - rewrite app_cons, !contains_cons, IH.
    rewrite <- app_cons, (prefix_skip_right z) by assumption.
    reflexivity.
Qed.

End StringFacts.

Section RoleFacts.

Lemma fold_char_other p t c :
  Ascii.eqb t "_" = false -> p t = false ->
  Ascii.eqb t (PyStr.fold_char p c) = Ascii.eqb t c.
Proof.
  intros Ht Hp. unfold PyStr.fold_char. destruct (p c) eqn:Hc; [|reflexivity].
  rewrite Ht. symmetry. apply Ascii.eqb_neq. intros ->. congruence.
Qed.

Lemma fold_char_underscore p c :
  Ascii.eqb "_" (PyStr.fold_char p c) = p c || Ascii.eqb "_" c.
Proof. unfold PyStr.fold_char. destruct (p c); reflexivity. Qed.

Lemma prefix_map_cons f a t c s :
  String.prefix (String a t) (PyStr.map f (String c s))
  = Ascii.eqb a (f c) && String.prefix t (PyStr.map f s).
Proof. simpl PyStr.map. apply prefix_cons. Qed.

Lemma map_id s : PyStr.map (fun c => c) s = s.
Proof. induction s as [|c s IH]; simpl; [|rewrite IH]; reflexivity. Qed.


Lemma prefix_empty_l s : String.prefix "" s = true.
Proof. destruct s; reflexivity. Qed.

(** One letter of the token: every folding leaves the letter test alone, so
    the five sides agree on it. *)
Ltac token_step u :=
  destruct u as [|? u];
  [ simpl; rewrite ?andb_false_r; reflexivity
  | rewrite !prefix_map_cons;
    rewrite ?fold_char_other by reflexivity;
    match goal with
    | |- context [Ascii.eqb ?t ?c && _] =>
        destruct (Ascii.eqb t c); cbn [andb orb];
        [ | rewrite ?andb_false_r; reflexivity ]
    end ].

Lemma prefix_token_folded (u : string) :
  String.prefix "initial_access" (PyStr.map (PyStr.fold_char is_separator) u)
  = String.prefix "initial_access" (PyStr.map (PyStr.fold_char (fun _ => false)) u)
    || String.prefix "initial_access" (PyStr.map (PyStr.fold_char (fun c => Ascii.eqb c " ")) u)
    || String.prefix "initial_access" (PyStr.map (PyStr.fold_char (fun c => Ascii.eqb c "-")) u)
    || String.prefix "initial_access" (PyStr.map (PyStr.fold_char (fun c => Ascii.eqb c ".")) u)
    || String.prefix "initial_access" (PyStr.map (PyStr.fold_char (fun c => Ascii.eqb c "/")) u).
Proof.
  do 7 token_step u.
  destruct u as [|c u]; [reflexivity|].
  rewrite !prefix_map_cons, !fold_char_underscore.
  destruct u as [|c1 [|c2 [|c3 [|c4 [|c5 [|c6 u]]]]]];
    simpl PyStr.map; rewrite ?prefix_cons, ?prefix_empty_r, ?prefix_empty_l;
    rewrite ?fold_char_other by reflexivity;
    rewrite ?andb_false_r; try reflexivity.
  unfold is_separator.
  destruct (Ascii.eqb "a" c1 && _); [|rewrite ?andb_false_r; reflexivity].
  btauto.
Qed.

End RoleFacts.

Section RoleClassification.

Lemma contains_token_folded (s : string) :
  PyStr.contains "initial_access" (PyStr.map (PyStr.fold_char is_separator) s)
  = PyStr.contains "initial_access" (PyStr.map (PyStr.fold_char (fun _ => false)) s)
    || PyStr.contains "initial_access" (PyStr.map (PyStr.fold_char (fun c => Ascii.eqb c " ")) s)
    || PyStr.contains "initial_access" (PyStr.map (PyStr.fold_char (fun c => Ascii.eqb c "-")) s)
    || PyStr.contains "initial_access" (PyStr.map (PyStr.fold_char (fun c => Ascii.eqb c ".")) s)
    || PyStr.contains "initial_access" (PyStr.map (PyStr.fold_char (fun c => Ascii.eqb c "/")) s).
Proof.
  induction s as [|c s IH]; [reflexivity|].
  change (PyStr.map ?f (String c s)) with (String (f c) (PyStr.map f s)).
  rewrite !contains_cons, IH.
  change (String (?f c) (PyStr.map ?f s)) with (PyStr.map f (String c s)).
  rewrite (prefix_token_folded (String c s)). btauto.
Qed.

Lemma fold_nothing s : PyStr.map (PyStr.fold_char (fun _ => false)) s = s.
Proof. apply map_id. Qed.

Lemma listed_name_contains_token val :
  existsb (String.eqb val)
    [ "initial_access"; "initial_access_agent"; "initial_access" +:+ nl ] = true ->
  PyStr.contains "initial_access" val = true.
Proof.
  simpl. rewrite orb_false_r, !orb_true_iff, !String.eqb_eq.
  intros [-> | [-> | ->]]; reflexivity.
Qed.

(** The chain of tests of [_is_initial_access_agent] is one test on the
    string with all four separators folded. *)
Lemma is_initial_access_val_folded val :
  is_initial_access_val val
  = PyStr.contains "initial_access" (normalize_separators val).
Proof.
  unfold is_initial_access_val, normalize_separators, PyStr.replace.
  rewrite contains_token_folded, fold_nothing.
  fold (PyStr.fold_char (fun c => Ascii.eqb c " ")).
  fold (PyStr.fold_char (fun c => Ascii.eqb c "-")).
  fold (PyStr.fold_char (fun c => Ascii.eqb c ".")).
  fold (PyStr.fold_char (fun c => Ascii.eqb c "/")).
  destruct (existsb _ _) eqn:Hset.
  - rewrite (listed_name_contains_token _ Hset). reflexivity.
  - btauto.
Qed.

Lemma is_summary_val_contains val :
  is_summary_val val = PyStr.contains "summary" val.
Proof.
  unfold is_summary_val. destruct (String.eqb_spec val "summary") as [->|_];
    reflexivity.
Qed.

(** Stripping white space from both ends loses no occurrence of a token whose
    first and last characters are not images of white space. *)
Lemma contains_map_strip (h : ascii -> ascii) a t z name :
  PyStr.ends_with z (String a t) = true ->
  (forall c, PyStr.is_space c = true -> negb (Ascii.eqb a (h c)) = true) ->
  (forall c, PyStr.is_space c = true -> negb (Ascii.eqb (h c) z) = true) ->
  PyStr.contains (String a t) (PyStr.map h (PyStr.strip name))
  = PyStr.contains (String a t) (PyStr.map h name).
Proof.
  intros Hend Hfirst Hlast.
  destruct (strip_split name) as (l & r & Hname & Hl & Hr).
  rewrite Hname at 2. rewrite !map_app.
  rewrite contains_skip_left, (contains_skip_right z); trivial.
  - eapply all_chars_map, Hr. exact Hlast.
  - eapply all_chars_map, Hl. exact Hfirst.
Qed.

Lemma lower_strip_comm_token name :
  PyStr.contains "initial_access"
    (normalize_separators (PyStr.lower (PyStr.strip name)))
  = PyStr.contains "initial_access" (normalize_separators (PyStr.lower name)).
Proof.
  unfold normalize_separators, PyStr.lower. rewrite !map_map.
  apply (contains_map_strip _ "i" "nitial_access" "s"); [reflexivity| |];
    intros [[] [] [] [] [] [] [] []]; vm_compute;
    first [reflexivity | discriminate].
Qed.

Lemma lower_strip_comm_summary name :
  PyStr.contains "summary" (PyStr.lower (PyStr.strip name))
  = PyStr.contains "summary" (PyStr.lower name).
Proof.
  unfold PyStr.lower.
  apply (contains_map_strip _ "s" "ummary" "y"); [reflexivity| |];
    intros [[] [] [] [] [] [] [] []]; vm_compute;
    first [reflexivity | discriminate].
Qed.

Lemma role_val_str name :
  role_val (PStr name) = Ok (PyStr.lower (PyStr.strip name)).
Proof. destruct name; reflexivity. Qed.

Lemma is_initial_access_agent_str name :
  _is_initial_access_agent (PStr name)
  = Ok (PyStr.contains "initial_access"
          (normalize_separators (PyStr.lower name))).
Proof.
  unfold _is_initial_access_agent. rewrite role_val_str. simpl.
  rewrite is_initial_access_val_folded, lower_strip_comm_token. reflexivity.
Qed.

Lemma is_summary_agent_str name :
  _is_summary_agent (PStr name) = Ok (PyStr.contains "summary" (PyStr.lower name)).
Proof.
  unfold _is_summary_agent. rewrite role_val_str. simpl.
  rewrite is_summary_val_contains, lower_strip_comm_summary. reflexivity.
Qed.

Lemma sanitize_for_agent_by_role agent_name content :
  sanitize_for_agent agent_name content
  = (role ← classify_role agent_name;
     match role with
     | InitialAccessRole => PStr <$> _sanitize_initial_access_output content
     | SummaryRole => PStr <$> _sanitize_summary_output content
     | OtherRole => Ok content
     end).
Proof.
  unfold sanitize_for_agent, classify_role.
  destruct (_is_initial_access_agent agent_name) as [[]|]; simpl; trivial.
  destruct (_is_summary_agent agent_name) as [[]|]; reflexivity.
Qed.

(** C5 (as amended): for every agent-name string, the processor takes the
    initial-access branch exactly when the lower-cased name contains
    "initial_access" once the space and the characters [-], [.], [/] are
    folded into an underscore (no other white space is folded); the summary
    test holds exactly when the lower-cased name contains "summary"; the
    initial-access test comes first, so the summary branch is taken exactly
    when the summary test holds and the initial-access test does not; every
    other name takes neither branch. *)
Theorem role_classification_by_code (name : string) :
  let ia := PyStr.contains "initial_access"
              (normalize_separators (PyStr.lower name)) in
  let sm := PyStr.contains "summary" (PyStr.lower name) in
  _is_initial_access_agent (PStr name) = Ok ia
  /\ _is_summary_agent (PStr name) = Ok sm
  /\ classify_role (PStr name)
     = Ok (if ia then InitialAccessRole
           else if sm then SummaryRole else OtherRole).
Proof.
  intros ia sm. unfold classify_role.
  rewrite is_initial_access_agent_str, is_summary_agent_str.
  fold ia sm. repeat split. simpl. destruct ia, sm; reflexivity.
Qed.

(** C5 (counterexample): a tab between "initial" and "access" is white space,
    which the claim folds into an underscore, yet the processor does not take
    the initial-access branch; and a name that contains both tokens is a
    summary name for the claim, yet the processor takes the initial-access
    branch. *)
Lemma role_classification_counterexample :
  (Spec.is_initial_access_role ("initial" +:+ String "009" "access") = true
   /\ classify_role (PStr ("initial" +:+ String "009" "access")) = Ok OtherRole)
  /\ (Spec.is_summary_role "initial_access_summary" = true
      /\ classify_role (PStr "initial_access_summary") = Ok InitialAccessRole).
Proof. repeat split. Qed.

End RoleClassification.

(** ** The sanitizers *)

Section Sanitizers.

Lemma sanitize_with_str heading banned template text :
  sanitize_with heading banned template (PStr text)
  = Ok (if passes_gate heading banned (PyStr.lower text) then text else template).
Proof.
  unfold sanitize_with, passes_gate, Py.or_.
  destruct text as [|c text].
  - simpl Py.truthy. cbv iota.
    destruct (PyStr.contains heading (PyStr.lower "")); simpl;
      [destruct (existsb _ banned)|]; reflexivity.
  - simpl Py.truthy. cbv iota.
    destruct (PyStr.contains heading _); simpl;
      [destruct (existsb _ banned)|]; reflexivity.
Qed.

Lemma passes_gate_spec heading banned lowered :
  passes_gate heading banned lowered = true
  <-> PyStr.contains heading lowered = true
      /\ forall term, In term banned -> PyStr.contains term lowered = false.
Proof.
  unfold passes_gate. rewrite andb_true_iff, negb_true_iff.
  split; intros [Hh Hb]; split; trivial.
  - intros term Hin. destruct (PyStr.contains term lowered) eqn:Ht; trivial.
    assert (existsb (fun t => PyStr.contains t lowered) banned = true) as E
      by (apply existsb_exists; eauto).
    congruence.
  - destruct (existsb _ banned) eqn:E; trivial.
    apply existsb_exists in E as (term & Hin & Ht).
    rewrite (Hb term Hin) in Ht. discriminate.
Qed.

(** What a sanitizer returns is the template, or a text that passes the
    gate. *)
Lemma sanitize_with_output heading banned template content out :
  sanitize_with heading banned template content = Ok out ->
  out = template \/ passes_gate heading banned (PyStr.lower out) = true.
Proof.
  unfold sanitize_with, passes_gate.
  destruct (Py.or_ content (PStr "")) as [| | |text|]; try discriminate.
  destruct (PyStr.contains heading (PyStr.lower text)) eqn:Hh; simpl.
  - destruct (existsb _ banned) eqn:Hb; intros [= <-]; auto.
    right. rewrite Hh, Hb. reflexivity.
  - intros [= <-]; auto.
Qed.

Lemma initial_access_template_passes_gate :
  passes_gate initial_access_required_heading initial_access_banned_terms
    (PyStr.lower _initial_access_safe_template) = true.
Proof. vm_compute. reflexivity. Qed.

(** The initial-access half of C1: every output of the initial-access
    sanitizer has the heading and none of the banned terms. *)
Lemma initial_access_output_passes_gate content out :
  _sanitize_initial_access_output content = Ok out ->
  passes_gate initial_access_required_heading initial_access_banned_terms
    (PyStr.lower out) = true.
Proof.
  intros [-> | H]%sanitize_with_output;
    [apply initial_access_template_passes_gate | exact H].
Qed.

(** The summary sanitizer keeps the heading in every output, and an output
    that is not the template has none of the banned terms. *)
Lemma summary_output_heading content out :
  _sanitize_summary_output content = Ok out ->
  PyStr.contains summary_required_heading (PyStr.lower out) = true
  /\ (out <> _summary_safe_template ->
      passes_gate summary_required_heading summary_banned_terms
        (PyStr.lower out) = true).
Proof.
  intros [-> | H]%sanitize_with_output.
  - split; [vm_compute; reflexivity | congruence].
  - split; [|trivial]. apply passes_gate_spec in H. tauto.
Qed.

(** C1 (evaluation at the failing input): on the empty content the summary
    sanitizer substitutes its template, and the lowered template contains
    "rce", a term of the summary banned list (inside "enforce"), so the output
    does not pass the gate that the claim promises. *)
Theorem summary_template_has_banned_term :
  _sanitize_summary_output (PStr "") = Ok _summary_safe_template
  /\ In "rce" summary_banned_terms
  /\ PyStr.contains "rce" (PyStr.lower _summary_safe_template) = true
  /\ passes_gate summary_required_heading summary_banned_terms
       (PyStr.lower _summary_safe_template) = false.
Proof.
  split; [vm_compute; reflexivity|].
  split; [|split; vm_compute; reflexivity].
  unfold summary_banned_terms. simpl. tauto.
Qed.

End Sanitizers.

(** ** Building messages *)

Section Messages.

Context (W : Collaborators).

Implicit Types (ev m : gmap string PyVal) (now : string).

Lemma get_or_lookup ev k d v : ev !! k = Some v -> Py.get_or ev k d = v.
Proof. unfold Py.get_or. intros ->. reflexivity. Qed.

Lemma not_raises {A} (r : result A) :
  negb (raises r) = true -> exists a, r = Ok a.
Proof. destruct r; [eauto|discriminate]. Qed.

Lemma ai_message_content now agent_name display_name avatar content raw ev m :
  _create_ai_message W now agent_name display_name avatar content raw ev = Ok m ->
  exists content',
    sanitize_for_agent agent_name content = Ok content'
    /\ m !! "content" = Some content'.
Proof.
  unfold _create_ai_message.
  destruct (sanitize_for_agent agent_name content) as [content'|]; [|discriminate].
  simpl. destruct (Py.lower agent_name) as [agent_id|]; [|discriminate].
  simpl. destruct (Py.take 100 content') as [head|]; [|discriminate].
  simpl. destruct (py_hash W head) as [h|]; [|discriminate].
  simpl. destruct (extract_tool_calls W raw ev) as [tool_calls|]; [|discriminate].
  simpl. intros [= <-]. exists content'. split; [reflexivity|].
  destruct (Py.truthy tool_calls); by simplify_map_eq.
Qed.

Lemma ai_message_returns now agent_name display_name avatar content raw ev text :
  sanitize_for_agent (PStr agent_name) content = Ok (PStr text) ->
  negb (raises (extract_tool_calls W raw ev)) = true ->
  exists m,
    _create_ai_message W now (PStr agent_name) display_name avatar content raw ev
    = Ok m.
Proof.
  intros Hs [tool_calls Ht]%not_raises. unfold _create_ai_message.
  rewrite Hs. simpl. rewrite Ht. simpl. eauto.
Qed.

End Messages.

(** ** Classifying one event *)

Section Classify.

Context (W : Collaborators).

Implicit Types (ev m : gmap string PyVal) (now : string).

Lemma registry_returns_inv ev :
  registry_returns W ev = true ->
  exists display_name avatar,
    get_display_name W (Py.get_or ev "agent_name" (PStr "Unknown")) = Ok display_name
    /\ get_avatar W (Py.get_or ev "agent_name" (PStr "Unknown")) = Ok avatar.
Proof.
  unfold registry_returns.
  intros [[d Hd]%not_raises [a Ha]%not_raises]%andb_true_iff. eauto.
Qed.

(** C2: for every AI event whose agent name is an initial-access name and
    whose content is a string, the processor returns a message; its content is
    the initial-access template when the lowered content lacks the required
    heading or contains a banned term, and the input content otherwise. *)
Theorem initial_access_event_content now ev name text :
  ev !! "message_type" = Some (PStr "ai") ->
  ev !! "agent_name" = Some (PStr name) ->
  _is_initial_access_agent (PStr name) = Ok true ->
  ev !! "content" = Some (PStr text) ->
  registry_returns W ev = true ->
  tool_calls_return W ev = true ->
  exists m,
    process_cli_event W now ev = Ok m
    /\ ((PyStr.contains initial_access_required_heading (PyStr.lower text) = false
         \/ (exists term, In term initial_access_banned_terms
               /\ PyStr.contains term (PyStr.lower text) = true)) ->
        m !! "content" = Some (PStr _initial_access_safe_template))
    /\ ((PyStr.contains initial_access_required_heading (PyStr.lower text) = true
         /\ (forall term, In term initial_access_banned_terms ->
               PyStr.contains term (PyStr.lower text) = false)) ->
        m !! "content" = Some (PStr text)).
Proof.
  intros Htype Hname Hrole Hcontent Hreg Htools.
  destruct (registry_returns_inv ev Hreg) as (display_name & avatar & Hd & Ha).
  set (out := if passes_gate initial_access_required_heading
                   initial_access_banned_terms (PyStr.lower text)
              then text else _initial_access_safe_template).
  assert (sanitize_for_agent (PStr name) (PStr text) = Ok (PStr out)) as Hsan.
  { unfold sanitize_for_agent. rewrite Hrole. simpl.
    unfold _sanitize_initial_access_output. rewrite sanitize_with_str.
    reflexivity. }
  destruct (ai_message_returns W now name display_name avatar (PStr text)
              (Py.get ev "raw_message") ev out Hsan Htools) as [m Hm].
  exists m. split.
  - unfold process_cli_event. rewrite Hd, Ha. simpl.
    rewrite (get_or_lookup ev "message_type" _ _ Htype).
    rewrite (get_or_lookup ev "agent_name" _ _ Hname).
    rewrite (get_or_lookup ev "content" _ _ Hcontent).
    simpl. exact Hm.
  - apply ai_message_content in Hm as (content' & Hc & Hlook).
    rewrite Hsan in Hc. injection Hc as <-. rewrite Hlook. subst out.
    destruct (passes_gate _ _ (PyStr.lower text)) eqn:Hgate.
    + apply passes_gate_spec in Hgate as [Hh Hb]. split; [|reflexivity].
      intros [Hno | (term & Hin & Hyes)]; [congruence|].
      rewrite (Hb term Hin) in Hyes. discriminate.
    + split; [reflexivity|]. intros Hok%passes_gate_spec. congruence.
Qed.

(** C4 (evaluation at the failing input): an AI event of an ordinary agent
    whose content is present with value [None] makes the processor raise,
    whatever the collaborators and the clock do: no sanitizer replaces the
    [None], and the id takes [content[:100]]. *)
Theorem none_content_event_raises now :
  raises (process_cli_event W now none_content_event) = true.
Proof.
  unfold process_cli_event.
  destruct (get_display_name W _) as [display_name|]; [|reflexivity].
  destruct (get_avatar W _) as [avatar|]; [|reflexivity].
  reflexivity.
Qed.

Lemma tool_message_content now ev content m :
  _create_tool_message W now ev content = Ok m -> m !! "content" = Some content.
Proof.
  unfold _create_tool_message.
  destruct (parse_tool_name W _) as [parsed|]; [|discriminate].
  simpl. destruct (Py.take 100 content) as [head|]; [|discriminate].
  simpl. destruct (py_hash W head) as [h|]; [|discriminate].
  simpl. intros [= <-]. by simplify_map_eq.
Qed.

Lemma user_message_content now content m :
  _create_user_message W now content = Ok m -> m !! "content" = Some content.
Proof.
  unfold _create_user_message.
  destruct (py_hash W content) as [h|]; [|discriminate].
  simpl. intros [= <-]. by simplify_map_eq.
Qed.

(** C6: for every event whose message type is "tool" or "user", a message
    that the processor returns has as content the content of the event (the
    empty string when the event has none); and when the content is a string
    and the collaborators answer, the processor does return a message. *)
Theorem tool_user_content_unchanged now ev :
  ev !! "message_type" = Some (PStr "tool")
  \/ ev !! "message_type" = Some (PStr "user") ->
  (forall m, process_cli_event W now ev = Ok m ->
     m !! "content" = Some (Py.get_or ev "content" (PStr "")))
  /\ (forall text, ev !! "content" = Some (PStr text) ->
        registry_returns W ev = true -> tool_name_parses W ev = true ->
        exists m, process_cli_event W now ev = Ok m
                  /\ m !! "content" = Some (PStr text)).
Proof.
  intros Htype.
  assert (forall m, process_cli_event W now ev = Ok m ->
            m !! "content" = Some (Py.get_or ev "content" (PStr ""))) as Hsame.
  { intros m. unfold process_cli_event.
    destruct (get_display_name W _) as [display_name|]; [|discriminate].
    destruct (get_avatar W _) as [avatar|]; [|discriminate]. simpl.
    destruct Htype as [Htype | Htype];
      rewrite (get_or_lookup ev "message_type" _ _ Htype); simpl.
    - apply tool_message_content.
    - apply user_message_content. }
  split; [exact Hsame|].
  intros text Hcontent Hreg Hparse.
  destruct (registry_returns_inv ev Hreg) as (display_name & avatar & Hd & Ha).
  apply not_raises in Hparse as [parsed Hparsed].
  assert (exists m, process_cli_event W now ev = Ok m) as [m Hm].
  { unfold process_cli_event. rewrite Hd, Ha. simpl.
    rewrite (get_or_lookup ev "content" _ _ Hcontent).
    destruct Htype as [Htype | Htype];
      rewrite (get_or_lookup ev "message_type" _ _ Htype); simpl.
    - unfold _create_tool_message. rewrite Hparsed. simpl. eauto.
    - unfold _create_user_message. simpl. eauto. }
  exists m. split; [exact Hm|].
  rewrite (Hsame m Hm), (get_or_lookup ev "content" _ _ Hcontent). reflexivity.
Qed.

Lemma id_only_field (t1 t2 : PyVal) (m : gmap string PyVal) :
  delete "id" (<[ "id" := t1 ]> m) = delete "id" (<[ "id" := t2 ]> m).
Proof. rewrite !delete_insert_eq. reflexivity. Qed.

Ltac drop_id :=
  repeat (rewrite (delete_insert_ne _ "id") by discriminate);
  rewrite ?delete_insert_eq; reflexivity.

Lemma ai_message_clock t1 t2 agent_name display_name avatar content raw ev :
  delete "id" <$> _create_ai_message W t1 agent_name display_name avatar content raw ev
  = delete "id" <$> _create_ai_message W t2 agent_name display_name avatar content raw ev.
Proof.
  unfold _create_ai_message.
  destruct (sanitize_for_agent agent_name content) as [content'|]; [|reflexivity].
  simpl. destruct (Py.lower agent_name) as [agent_id|]; [|reflexivity].
  simpl. destruct (Py.take 100 content') as [head|]; [|reflexivity].
  simpl. destruct (py_hash W head) as [h|]; [|reflexivity].
  simpl. destruct (extract_tool_calls W raw ev) as [tool_calls|]; [|reflexivity].
  simpl. f_equal; destruct (Py.truthy tool_calls); drop_id.
Qed.

Lemma tool_message_clock t1 t2 ev content :
  delete "id" <$> _create_tool_message W t1 ev content
  = delete "id" <$> _create_tool_message W t2 ev content.
Proof.
  unfold _create_tool_message.
  destruct (parse_tool_name W _) as [parsed|]; [|reflexivity].
  simpl. destruct (Py.take 100 content) as [head|]; [|reflexivity].
  simpl. destruct (py_hash W head) as [h|]; [|reflexivity].
  simpl. f_equal; drop_id.
Qed.

Lemma user_message_clock t1 t2 content :
  delete "id" <$> _create_user_message W t1 content
  = delete "id" <$> _create_user_message W t2 content.
Proof.
  unfold _create_user_message.
  destruct (py_hash W content) as [h|]; [|reflexivity].
  simpl. f_equal; drop_id.
Qed.

Lemma str_app_assoc (a b c : string) : (a +:+ b) +:+ c = a +:+ b +:+ c.
Proof.
  induction a as [|x a IH]; [reflexivity|].
  rewrite !app_cons, IH. reflexivity.
Qed.

Lemma str_app_inj_l (s t1 t2 : string) : s +:+ t1 = s +:+ t2 -> t1 = t2.
Proof.
  induction s as [|x s IH]; [trivial|].
  rewrite !app_cons. intros [= H]. exact (IH H).
Qed.

Ltac lift_id :=
  repeat (rewrite (insert_insert_ne _ _ "id") by discriminate).

(** The clock enters a message as the end of its id and nowhere else. *)
Lemma ai_message_with_clock agent_name display_name avatar content raw ev :
  (exists e, forall now,
      _create_ai_message W now agent_name display_name avatar content raw ev
      = Raise e)
  \/ (exists stem (fields : gmap string PyVal),
        fields !! "id" = None
        /\ forall now,
             _create_ai_message W now agent_name display_name avatar content
               raw ev
             = Ok (<[ "id" := PStr (stem +:+ now) ]> fields)).
Proof.
  destruct (sanitize_for_agent agent_name content) as [content'|e] eqn:Hs;
    [|left; exists e; intros now; unfold _create_ai_message; rewrite Hs;
      reflexivity].
  destruct (Py.lower agent_name) as [agent_id|e] eqn:Hl;
    [|left; exists e; intros now; unfold _create_ai_message; rewrite Hs; simpl;
      rewrite Hl; reflexivity].
  destruct (Py.take 100 content') as [head|e] eqn:Ht;
    [|left; exists e; intros now; unfold _create_ai_message; rewrite Hs; simpl;
      rewrite Hl; simpl; rewrite Ht; reflexivity].
  destruct (py_hash W head) as [h|e] eqn:Hh;
    [|left; exists e; intros now; unfold _create_ai_message; rewrite Hs; simpl;
      rewrite Hl; simpl; rewrite Ht; simpl; rewrite Hh; reflexivity].
  destruct (extract_tool_calls W raw ev) as [tool_calls|e] eqn:Hc;
    [|left; exists e; intros now; unfold _create_ai_message; rewrite Hs; simpl;
      rewrite Hl; simpl; rewrite Ht; simpl; rewrite Hh; simpl; rewrite Hc;
      reflexivity].
  right. exists ("ai_" +:+ agent_id +:+ "_" +:+ pretty h +:+ "_").
  set (fields := (<[ "type" := PStr "ai" ]>
                  (<[ "agent_id" := PStr agent_id ]>
                  (<[ "display_name" := display_name ]>
                  (<[ "avatar" := avatar ]>
                  (<[ "content" := content' ]> ∅)))) : gmap string PyVal)).
  exists (if Py.truthy tool_calls
          then <[ "tool_calls" := tool_calls ]> fields else fields).
  split.
  - subst fields. destruct (Py.truthy tool_calls); by simplify_map_eq.
  - intros now. unfold _create_ai_message.
    rewrite Hs. simpl. rewrite Hl. simpl. rewrite Ht. simpl. rewrite Hh. simpl.
    rewrite Hc. simpl. f_equal. rewrite !str_app_assoc. subst fields.
    destruct (Py.truthy tool_calls); lift_id; reflexivity.
Qed.

Lemma tool_message_with_clock ev content :
  (exists e, forall now, _create_tool_message W now ev content = Raise e)
  \/ (exists stem (fields : gmap string PyVal),
        fields !! "id" = None
        /\ forall now,
             _create_tool_message W now ev content
             = Ok (<[ "id" := PStr (stem +:+ now) ]> fields)).
Proof.
  destruct (parse_tool_name W (Py.get_or ev "tool_name" (PStr "Unknown Tool")))
    as [parsed|e] eqn:Hp;
    [|left; exists e; intros now; unfold _create_tool_message; rewrite Hp;
      reflexivity].
  destruct (Py.take 100 content) as [head|e] eqn:Ht;
    [|left; exists e; intros now; unfold _create_tool_message; rewrite Hp; simpl;
      rewrite Ht; reflexivity].
  destruct (py_hash W head) as [h|e] eqn:Hh;
    [|left; exists e; intros now; unfold _create_tool_message; rewrite Hp; simpl;
      rewrite Ht; simpl; rewrite Hh; reflexivity].
  right.
  exists ("tool_" +:+ py_format W (Py.get_or ev "tool_name" (PStr "Unknown Tool"))
          +:+ "_" +:+ pretty h +:+ "_").
  exists (<[ "type" := PStr "tool" ]>
          (<[ "tool_name" := Py.get_or ev "tool_name" (PStr "Unknown Tool") ]>
          (<[ "tool_display_name" := Py.get_or ev "tool_display_name" parsed ]>
          (<[ "content" := content ]> ∅)))).
  split; [by simplify_map_eq|].
  intros now. unfold _create_tool_message.
  rewrite Hp. simpl. rewrite Ht. simpl. rewrite Hh. simpl.
  f_equal. rewrite !str_app_assoc. lift_id. reflexivity.
Qed.

Lemma user_message_with_clock content :
  (exists e, forall now, _create_user_message W now content = Raise e)
  \/ (exists stem (fields : gmap string PyVal),
        fields !! "id" = None
        /\ forall now,
             _create_user_message W now content
             = Ok (<[ "id" := PStr (stem +:+ now) ]> fields)).
Proof.
  destruct (py_hash W content) as [h|e] eqn:Hh;
    [|left; exists e; intros now; unfold _create_user_message; rewrite Hh;
      reflexivity].
  right. exists ("user_" +:+ pretty h +:+ "_").
  exists (<[ "type" := PStr "user" ]> (<[ "content" := content ]> ∅)).
  split; [by simplify_map_eq|].
  intros now. unfold _create_user_message. rewrite Hh. simpl.
  f_equal. rewrite !str_app_assoc. lift_id. reflexivity.
Qed.

Lemma process_with_clock ev :
  (exists e, forall now, process_cli_event W now ev = Raise e)
  \/ (exists stem (fields : gmap string PyVal),
        fields !! "id" = None
        /\ forall now,
             process_cli_event W now ev
             = Ok (<[ "id" := PStr (stem +:+ now) ]> fields)).
Proof.
  unfold process_cli_event.
  destruct (get_display_name W _) as [display_name|e];
    [|left; exists e; reflexivity].
  destruct (get_avatar W _) as [avatar|e]; [|left; exists e; reflexivity].
  simpl.
  destruct (Py.eq _ (PStr "ai")); [apply ai_message_with_clock|].
  destruct (Py.eq _ (PStr "tool")); [apply tool_message_with_clock|].
  destruct (Py.eq _ (PStr "user")); [apply user_message_with_clock|].
  apply ai_message_with_clock.
Qed.

(** C3 (as amended): the result of classifying an event depends on the event
    and on the reading of the wall clock taken while the message is built.  At
    any two readings the processor raises the same exception or returns two
    messages that are equal once the id is left out; and the ids of two
    returned messages, and so the messages, are equal exactly when the two
    readings are equal. *)
Theorem clock_reaches_id_only t1 t2 ev :
  delete "id" <$> process_cli_event W t1 ev
  = delete "id" <$> process_cli_event W t2 ev
  /\ forall m1 m2,
       process_cli_event W t1 ev = Ok m1 ->
       process_cli_event W t2 ev = Ok m2 ->
       (m1 !! "id" = m2 !! "id" <-> t1 = t2) /\ (m1 = m2 <-> t1 = t2).
Proof.
  destruct (process_with_clock ev) as [[e He] | (stem & fields & Hnone & Hok)].
  - rewrite !He. split; [reflexivity|]. discriminate.
  - rewrite !Hok. split.
    + simpl. rewrite !delete_insert_eq. reflexivity.
    + intros m1 m2 [= <-] [= <-].
      assert (<[ "id" := PStr (stem +:+ t1) ]> fields !! "id"
              = <[ "id" := PStr (stem +:+ t2) ]> fields !! "id" <-> t1 = t2)
        as Hid.
      { rewrite !lookup_insert_eq. split; [|intros ->; reflexivity].
        intros [= H]. exact (str_app_inj_l _ _ _ H). }
      split; [exact Hid|]. split; [|intros ->; reflexivity].
      intros Heq. apply Hid. rewrite Heq. reflexivity.
Qed.

End Classify.

(** C2 (witness): the headless initial-access event of the specification. *)
Lemma initial_access_event_content_witness :
  exists m,
    process_cli_event sample_collaborators "1700000000.5"
      headless_initial_access_event = Ok m
    /\ m !! "content" = Some (PStr _initial_access_safe_template).
Proof.
  destruct (initial_access_event_content sample_collaborators "1700000000.5"
              headless_initial_access_event "Initial_Access_Agent"
              "random text without heading")
    as (m & Hm & Htemplate & _); try (vm_compute; reflexivity).
  exists m. split; [exact Hm|]. apply Htemplate. left. vm_compute. reflexivity.
Defined.

(** C6 (witness): the tool event of the specification. *)
Lemma tool_user_content_unchanged_witness :
  exists m,
    process_cli_event sample_collaborators "1700000000.5" nmap_tool_event = Ok m
    /\ m !! "content" = Some (PStr "raw nmap output").
Proof.
  destruct (tool_user_content_unchanged sample_collaborators "1700000000.5"
              nmap_tool_event) as [_ Hreturns].
  - left. vm_compute. reflexivity.
  - apply Hreturns; vm_compute; reflexivity.
Defined.

(** C3 (witness): the user event at two different readings of the clock. *)
Lemma clock_reaches_id_only_witness :
  exists m1 m2,
    process_cli_event sample_collaborators "1700000000.5" hello_user_event = Ok m1
    /\ process_cli_event sample_collaborators "1700000001.5" hello_user_event
       = Ok m2
    /\ m1 !! "id" <> m2 !! "id"
    /\ delete "id" m1 = delete "id" m2.
Proof.
  destruct (process_cli_event sample_collaborators "1700000000.5" hello_user_event)
    as [m1|e] eqn:H1; [|vm_compute in H1; discriminate H1].
  destruct (process_cli_event sample_collaborators "1700000001.5" hello_user_event)
    as [m2|e] eqn:H2; [|vm_compute in H2; discriminate H2].
  exists m1, m2. split; [reflexivity|]. split; [reflexivity|].
  destruct (clock_reaches_id_only sample_collaborators "1700000000.5"
              "1700000001.5" hello_user_event) as [Hfields Hids].
  destruct (Hids m1 m2 H1 H2) as [Hid _]. split.
  - intros Heq. apply Hid in Heq. discriminate Heq.
  - rewrite H1, H2 in Hfields. injection Hfields as Hfields. exact Hfields.
Defined.

(** C3 (counterexample): the same user event classified at two readings of
    the clock gives two different messages, which differ in the id. *)
Lemma classify_twice_counterexample :
  (fun m : gmap string PyVal => m !! "id")
    <$> process_cli_event sample_collaborators "1700000000.5" hello_user_event
  = Ok (Some (PStr "user_7_1700000000.5"))
  /\ (fun m : gmap string PyVal => m !! "id")
       <$> process_cli_event sample_collaborators "1700000001.5" hello_user_event
     = Ok (Some (PStr "user_7_1700000001.5"))
  /\ process_cli_event sample_collaborators "1700000000.5" hello_user_event
     <> process_cli_event sample_collaborators "1700000001.5" hello_user_event.
Proof.
  split; [vm_compute; reflexivity|]. split; [vm_compute; reflexivity|].
  intros Heq.
  apply (f_equal (fmap (fun m : gmap string PyVal => m !! "id"))) in Heq.
  vm_compute in Heq. discriminate Heq.
Qed.

(** ** Status extraction *)

Section Status.

Implicit Types (events : list (gmap string PyVal)).

Lemma scan_skips events older :
  forallb (fun e => negb (names_active_agent e)) events = true ->
  scan_active_agent (events ++ older) = scan_active_agent older.
Proof.
  induction events as [|e events IH]; [reflexivity|].
  simpl forallb. intros [He Hrest]%andb_true_iff.
  rewrite <- app_comm_cons. simpl scan_active_agent.
  unfold names_active_agent in He. apply negb_true_iff in He.
  rewrite <- andb_assoc in He.
  destruct (Py.eq (Py.get e "type") (PStr "message")
            && Py.eq (Py.get e "message_type") (PStr "ai")); [|auto].
  simpl in He. rewrite He. auto.
Qed.

Lemma scan_finds e older s :
  names_active_agent e = true ->
  Py.get e "agent_name" = PStr s ->
  scan_active_agent (e :: older) = Ok (PStr (PyStr.lower s)).
Proof.
  unfold names_active_agent. rewrite <- andb_assoc.
  intros [Hai Hname]%andb_true_iff Hs. simpl. rewrite Hai, Hname, Hs.
  reflexivity.
Qed.

Lemma forallb_rev {A} (p : A -> bool) (l : list A) :
  forallb p (rev l) = forallb p l.
Proof.
  induction l as [|a l IH]; [reflexivity|].
  simpl. rewrite forallb_app, IH. simpl. rewrite andb_true_r. apply andb_comm.
Qed.

(** C7: [extract_agent_status] reads the events from the most recent one
    back.  The most recent event with envelope type "message", message type
    "ai" and an agent name that is non-empty and not "Unknown" gives
    [active_agent], lower-cased, whatever the older events are; when no event
    qualifies [active_agent] is [None]. *)
Theorem active_agent_most_recent events :
  (forall older e newer s,
      events = older ++ e :: newer ->
      names_active_agent e = true ->
      forallb (fun e' => negb (names_active_agent e')) newer = true ->
      Py.get e "agent_name" = PStr s ->
      exists status,
        extract_agent_status events = Ok status
        /\ status !! "active_agent" = Some (PStr (PyStr.lower s)))
  /\ (forallb (fun e => negb (names_active_agent e)) events = true ->
      exists status,
        extract_agent_status events = Ok status
        /\ status !! "active_agent" = Some PNone).
Proof.
  split.
  - intros older e newer s -> He Hnewer Hs. unfold extract_agent_status.
    rewrite rev_app_distr. simpl rev. rewrite <- app_assoc. simpl app.
    rewrite scan_skips by (rewrite forallb_rev; exact Hnewer).
    rewrite (scan_finds e _ s He Hs). simpl.
    eexists. split; [reflexivity|]. by simplify_map_eq.
  - intros Hnone. unfold extract_agent_status.
    rewrite <- (app_nil_r (rev events)).
    rewrite scan_skips by (rewrite forallb_rev; exact Hnone).
    simpl. eexists. split; [reflexivity|]. by simplify_map_eq.
Qed.

End Status.

(** C7 (witness): in the sample history the last event names "Unknown" and
    the one before is a tool event, so the second event gives the agent. *)
Lemma active_agent_most_recent_witness :
  exists status,
    extract_agent_status sample_history = Ok status
    /\ status !! "active_agent" = Some (PStr "recon").
Proof.
  destruct (active_agent_most_recent sample_history) as [Hfound _].
  apply (Hfound [envelope "ai" (PStr "Planner")] (envelope "ai" (PStr "Recon"))
           [envelope "tool" (PStr "Scanner"); envelope "ai" (PStr "Unknown")]
           "Recon"); [reflexivity | vm_compute; reflexivity ..].
Defined.

(** C7 (counterexample): an event of message type "ai" that has no envelope
    type "message" is an event of AI type for the claim, which then gives its
    agent name, yet [extract_agent_status] passes over it: alone it leaves
    [active_agent] at [None], and as the most recent event inside an envelope
    of type "status" it leaves the agent of an older event in place. *)
Lemma active_agent_most_recent_counterexample :
  (StatusSpec.active_agent [bare_ai_event] = PStr "recon"
   /\ (fun status : gmap string PyVal => status !! "active_agent")
        <$> extract_agent_status [bare_ai_event]
      = Ok (Some PNone))
  /\ (StatusSpec.active_agent
        [envelope "ai" (PStr "Planner"); status_envelope_ai_event]
      = PStr "recon"
      /\ (fun status : gmap string PyVal => status !! "active_agent")
           <$> extract_agent_status
                 [envelope "ai" (PStr "Planner"); status_envelope_ai_event]
         = Ok (Some (PStr "planner"))).
Proof. repeat split; vm_compute; reflexivity. Qed.

(** ** Duplicate detection *)

Section Duplicates.

Implicit Types (m msg new_message : gmap string PyVal).

Lemma PyVal_nested_ind (P : PyVal -> Prop) :
  P PNone -> (forall b, P (PBool b)) -> (forall z, P (PInt z)) ->
  (forall s, P (PStr s)) -> (forall l, Forall P l -> P (PList l)) ->
  forall v, P v.
Proof.
  intros HNone HBool HInt HStr HList. fix IH 1. intros [| b | z | s | l].
  - exact HNone.
  - apply HBool.
  - apply HInt.
  - apply HStr.
  - apply HList. induction l as [|v l IHl]; constructor; [apply IH | exact IHl].
Qed.

(** A value is [==] to itself. *)
Lemma py_eq_refl v : Py.eq v v = true.
Proof.
  induction v as [| b | z | s | l IHl] using PyVal_nested_ind; simpl.
  - reflexivity.
  - destruct b; reflexivity.
  - apply Z.eqb_refl.
  - apply String.eqb_refl.
  - induction IHl as [|v l Hv _ IH]; [reflexivity|]. rewrite Hv. exact IH.
Qed.

Lemma get_same m1 m2 k : m1 !! k = m2 !! k -> Py.get m1 k = Py.get m2 k.
Proof. unfold Py.get. intros ->. reflexivity. Qed.

Lemma content_check_same msg new_message :
  same_fields msg new_message ->
  Py.eq (Py.get msg "agent_id") (Py.get new_message "agent_id")
  && Py.eq (Py.get msg "type") (Py.get new_message "type")
  && Py.eq (Py.get msg "content") (Py.get_or new_message "content" (PStr ""))
  = true.
Proof.
  intros (Htype & Hagent & content & Hc1 & Hc2).
  rewrite (get_same _ _ _ Htype), (get_same _ _ _ Hagent).
  unfold Py.get at 5. unfold Py.get_or. rewrite Hc1, Hc2. simpl.
  rewrite !py_eq_refl. reflexivity.
Qed.

(** C8 (as amended): for a candidate whose id is non-empty, the test is true
    whenever the list holds a message with the same type, agent id and
    content, whatever the ids; and for such a candidate the test is false only
    when no message of the list has the id of the candidate and none has its
    type, agent id and content. *)
Theorem duplicate_by_content new_message existing :
  Py.truthy (Py.get new_message "id") = true ->
  ((exists msg, In msg existing /\ same_fields msg new_message) ->
   is_duplicate_message new_message existing = true)
  /\ (is_duplicate_message new_message existing = false ->
      forall msg, In msg existing ->
        Py.eq (Py.get msg "id") (Py.get new_message "id") = false
        /\ ~ same_fields msg new_message).
Proof.
  intros Hid. unfold is_duplicate_message. rewrite Hid. simpl. split.
  - intros (msg & Hin & Hsame).
    destruct (existsb _ existing) eqn:Hids; [reflexivity|].
    apply existsb_exists. exists msg. split; [exact Hin|].
    apply content_check_same, Hsame.
  - destruct (existsb _ existing) eqn:Hids; [discriminate|].
    intros Hcontent msg Hin. split.
    + destruct (Py.eq (Py.get msg "id") _) eqn:Heq; [|reflexivity].
      assert (existsb (fun msg => Py.eq (Py.get msg "id") (Py.get new_message "id"))
                existing = true) as E by (apply existsb_exists; eauto).
      congruence.
    + intros Hsame%content_check_same.
      assert (existsb
                (fun msg =>
                   Py.eq (Py.get msg "agent_id") (Py.get new_message "agent_id")
                   && Py.eq (Py.get msg "type") (Py.get new_message "type")
                   && Py.eq (Py.get msg "content")
                        (Py.get_or new_message "content" (PStr "")))
                existing = true) as E by (apply existsb_exists; eauto).
      congruence.
Qed.

(** C9: a message with a non-empty id is a duplicate of itself. *)
Theorem duplicate_of_itself m :
  Py.truthy (Py.get m "id") = true -> is_duplicate_message m [m] = true.
Proof.
  intros Hid. unfold is_duplicate_message. rewrite Hid. simpl.
  rewrite py_eq_refl. reflexivity.
Qed.

(** C10: a candidate whose id is absent, [None] or the empty string is never
    a duplicate, whatever the list holds. *)
Theorem no_id_never_duplicate new_message existing :
  new_message !! "id" = None
  \/ new_message !! "id" = Some PNone
  \/ new_message !! "id" = Some (PStr "") ->
  is_duplicate_message new_message existing = false.
Proof.
  unfold is_duplicate_message, Py.get.
  intros [-> | [-> | ->]]; reflexivity.
Qed.

End Duplicates.

(** C8 (counterexample): the candidate has no id, the list holds a message
    with an id and the same type, agent id and content, and the test is
    false. *)
Lemma duplicate_by_content_counterexample :
  same_fields (ai_message (Some (PStr "ai_recon_7_1700000000.5")) "recon" "done")
    (ai_message None "recon" "done")
  /\ is_duplicate_message (ai_message None "recon" "done")
       [ai_message (Some (PStr "ai_recon_7_1700000000.5")) "recon" "done"]
     = false.
Proof.
  split; [|vm_compute; reflexivity].
  repeat split; try (vm_compute; reflexivity).
  exists (PStr "done"). split; vm_compute; reflexivity.
Qed.

(** C8 (witness): two messages with different ids and the same fields. *)
Lemma duplicate_by_content_witness :
  is_duplicate_message
    (ai_message (Some (PStr "ai_recon_7_1700000001.5")) "recon" "done")
    [ai_message (Some (PStr "ai_recon_7_1700000000.5")) "recon" "done"]
  = true.
Proof.
  destruct (duplicate_by_content
              (ai_message (Some (PStr "ai_recon_7_1700000001.5")) "recon" "done")
              [ai_message (Some (PStr "ai_recon_7_1700000000.5")) "recon" "done"])
    as [Hdup _]; [vm_compute; reflexivity|].
  apply Hdup. eexists. split; [left; reflexivity|].
  split; [vm_compute; reflexivity|]. split; [vm_compute; reflexivity|].
  exists (PStr "done"). split; vm_compute; reflexivity.
Defined.

(** C9 (witness) *)
Lemma duplicate_of_itself_witness :
  is_duplicate_message
    (ai_message (Some (PStr "ai_recon_7_1700000000.5")) "recon" "done")
    [ai_message (Some (PStr "ai_recon_7_1700000000.5")) "recon" "done"]
  = true.
Proof. apply duplicate_of_itself. vm_compute. reflexivity. Defined.

(** C10 (witness): the list holds a message with the same type, agent id and
    content as the candidate, whose id is the empty string. *)
Lemma no_id_never_duplicate_witness :
  is_duplicate_message (ai_message (Some (PStr "")) "recon" "done")
    [ai_message (Some (PStr "ai_recon_7_1700000000.5")) "recon" "done"]
  = false.
Proof. apply no_id_never_duplicate. right. right. vm_compute. reflexivity. Defined.

(** ** Concrete runs *)

Section Runs.

Example lower_run : PyStr.lower "Initial Access-Agent" = "initial access-agent".
Proof. reflexivity. Qed.

Example strip_run :
  PyStr.strip (String "009" "  Summary Agent " +:+ nl) = "Summary Agent".
Proof. reflexivity. Qed.

Example role_runs :
  classify_role (PStr "Initial-Access Agent") = Ok InitialAccessRole
  /\ classify_role (PStr "initial.access") = Ok InitialAccessRole
  /\ classify_role (PStr " Summary ") = Ok SummaryRole
  /\ classify_role (PStr "planner") = Ok OtherRole
  /\ classify_role PNone = Ok OtherRole
  /\ classify_role (PInt 5) = Raise AttributeError.
Proof. repeat split. Qed.

(** The summary example of the specification: heading, no banned term. *)
Example summary_passes_unchanged :
  _sanitize_summary_output
    (PStr ("Engagement Summary (Public Demo Safe)" +:+ nl +:+ nl
           +:+ "All exposed services were reviewed."))
  = Ok ("Engagement Summary (Public Demo Safe)" +:+ nl +:+ nl
        +:+ "All exposed services were reviewed.").
Proof. vm_compute. reflexivity. Qed.

(** The cost that the specification names: one banned word replaces the
    whole text. *)
Example summary_command_replaced :
  _sanitize_summary_output
    (PStr ("Engagement Summary (Public Demo Safe)" +:+ nl
           +:+ "The chain of command was informed."))
  = Ok _summary_safe_template.
Proof. vm_compute. reflexivity. Qed.

(** An agent name present with value [None] also makes the processor raise:
    both role tests accept the [None], the lower-casing of the agent id does
    not. *)
Lemma none_agent_event_raises (W : Collaborators) (now : string) :
  raises (process_cli_event W now none_agent_event) = true.
Proof.
  unfold process_cli_event.
  destruct (get_display_name W _) as [display_name|]; [|reflexivity].
  destruct (get_avatar W _) as [avatar|]; [|reflexivity].
  reflexivity.
Qed.

(** An event with no field at all is built as an AI message of "Unknown". *)
Example empty_event_run :
  (fun m : gmap string PyVal => (m !! "type", m !! "agent_id", m !! "content"))
    <$> process_cli_event sample_collaborators "1700000000.5" ∅
  = Ok (Some (PStr "ai"), Some (PStr "unknown"), Some (PStr "")).
Proof. vm_compute. reflexivity. Qed.

(** [extract_agent_status] on the empty list. *)
Example empty_history_status :
  extract_agent_status []
  = Ok (<[ "active_agent" := PNone ]>
       (<[ "completed_agents" := PList [] ]>
       (<[ "current_step" := PInt 0 ]> ∅))).
Proof. reflexivity. Qed.

(** A qualifying event whose agent name is not a string makes the scan
    raise. *)
Example numeric_agent_name_raises :
  extract_agent_status [envelope "ai" (PInt 5)] = Raise AttributeError.
Proof. reflexivity. Qed.

End Runs.

(** * Further properties of the processor *)

(** ** Case and the sanitizers *)

Section SanitizerFacts.

Lemma lower_char_idem c : PyStr.lower_char (PyStr.lower_char c) = PyStr.lower_char c.
Proof. destruct c as [[] [] [] [] [] [] [] []]; reflexivity. Qed.

Lemma lower_idem s : PyStr.lower (PyStr.lower s) = PyStr.lower s.
Proof.
  unfold PyStr.lower. rewrite map_map.
  induction s as [|c s IH]; simpl; [|rewrite lower_char_idem, IH]; reflexivity.
Qed.

Lemma sanitize_with_idempotent heading banned template content :
  (sanitize_with heading banned template content
     ≫= fun out => sanitize_with heading banned template (PStr out))
  = sanitize_with heading banned template content.
Proof.
  destruct (sanitize_with heading banned template content) as [out|e] eqn:Hs;
    [|reflexivity].
  simpl. rewrite sanitize_with_str.
  apply sanitize_with_output in Hs as [-> | ->]; [|reflexivity].
  destruct (passes_gate _ _ _); reflexivity.
Qed.

(** X1: both sanitizers are idempotent.  Sanitizing what a sanitizer
    returned gives the same text again, and a call that raises keeps
    raising. *)
Theorem sanitizers_idempotent content :
  (_sanitize_initial_access_output content
     ≫= fun out => _sanitize_initial_access_output (PStr out))
  = _sanitize_initial_access_output content
  /\ (_sanitize_summary_output content
        ≫= fun out => _sanitize_summary_output (PStr out))
     = _sanitize_summary_output content.
Proof. split; apply sanitize_with_idempotent. Qed.

End SanitizerFacts.

(** ** The branches of [process_cli_event] *)

Section Branches.

Context (W : Collaborators).

Implicit Types (ev m : gmap string PyVal) (now : string).

Lemma py_eq_str v s : Py.eq v (PStr s) = true -> v = PStr s.
Proof.
  destruct v; simpl; try discriminate.
  intros ->%String.eqb_eq. reflexivity.
Qed.

Lemma process_ai_branch now ev :
  message_kind ev = "ai" ->
  process_cli_event W now ev
  = (display_name ← get_display_name W (agent_name_of ev);
     avatar ← get_avatar W (agent_name_of ev);
     _create_ai_message W now (agent_name_of ev) display_name avatar
       (content_of ev) (Py.get ev "raw_message") ev).
Proof.
  unfold message_kind, process_cli_event, agent_name_of, content_of.
  destruct (Py.eq _ (PStr "tool")); [discriminate|].
  destruct (Py.eq _ (PStr "user")); [discriminate|].
  intros _. destruct (Py.eq _ (PStr "ai")); reflexivity.
Qed.

Lemma process_tool_branch now ev :
  message_kind ev = "tool" ->
  process_cli_event W now ev
  = (display_name ← get_display_name W (agent_name_of ev);
     avatar ← get_avatar W (agent_name_of ev);
     _create_tool_message W now ev (content_of ev)).
Proof.
  unfold message_kind, process_cli_event, agent_name_of, content_of.
  destruct (Py.eq _ (PStr "tool")) eqn:Htool.
  - apply py_eq_str in Htool. rewrite Htool. reflexivity.
  - destruct (Py.eq _ (PStr "user")); discriminate.
Qed.

Lemma process_user_branch now ev :
  message_kind ev = "user" ->
  process_cli_event W now ev
  = (display_name ← get_display_name W (agent_name_of ev);
     avatar ← get_avatar W (agent_name_of ev);
     _create_user_message W now (content_of ev)).
Proof.
  unfold message_kind, process_cli_event, agent_name_of, content_of.
  destruct (Py.eq _ (PStr "tool")); [discriminate|].
  destruct (Py.eq _ (PStr "user")) eqn:Huser; [|discriminate].
  apply py_eq_str in Huser. rewrite Huser. reflexivity.
Qed.

Lemma message_kind_cases ev :
  message_kind ev = "ai" \/ message_kind ev = "tool" \/ message_kind ev = "user".
Proof.
  unfold message_kind.
  destruct (Py.eq _ (PStr "tool")); [auto|].
  destruct (Py.eq _ (PStr "user")); auto.
Qed.

Lemma registry_returns_names ev :
  registry_returns W ev = true ->
  exists display_name avatar,
    get_display_name W (agent_name_of ev) = Ok display_name
    /\ get_avatar W (agent_name_of ev) = Ok avatar.
Proof. apply registry_returns_inv. Qed.

Lemma classify_role_str name :
  classify_role (PStr name)
  = Ok (if PyStr.contains "initial_access"
             (normalize_separators (PyStr.lower name))
        then InitialAccessRole
        else if PyStr.contains "summary" (PyStr.lower name)
             then SummaryRole else OtherRole).
Proof.
  unfold classify_role.
  rewrite is_initial_access_agent_str, is_summary_agent_str. simpl.
  destruct (PyStr.contains "initial_access" _); [reflexivity|].
  destruct (PyStr.contains "summary" _); reflexivity.
Qed.

Lemma sanitize_for_agent_str name text role :
  classify_role (PStr name) = Ok role ->
  sanitize_for_agent (PStr name) (PStr text)
  = Ok (PStr (content_for_role role text)).
Proof.
  intros Hrole. rewrite sanitize_for_agent_by_role, Hrole. simpl.
  destruct role; simpl; trivial;
    unfold _sanitize_initial_access_output, _sanitize_summary_output;
    rewrite sanitize_with_str; reflexivity.
Qed.

(** X2: for every event that goes to the AI branch (message type "ai" or
    any type other than "tool" and "user") with a string agent name and a
    string content, absent fields counting with their defaults, the processor
    returns a message whose content is decided by the role of the agent name:
    the gate of the initial-access sanitizer, the gate of the summary
    sanitizer, or the text unchanged for every other name. *)
Theorem ai_content_by_role now ev name text role :
  message_kind ev = "ai" ->
  agent_name_of ev = PStr name ->
  content_of ev = PStr text ->
  classify_role (PStr name) = Ok role ->
  registry_returns W ev = true ->
  tool_calls_return W ev = true ->
  exists m,
    process_cli_event W now ev = Ok m
    /\ m !! "content" = Some (PStr (content_for_role role text)).
Proof.
  intros Hkind Hname Hcontent Hrole Hreg Htools.
  destruct (registry_returns_names ev Hreg) as (display_name & avatar & Hd & Ha).
  pose proof (sanitize_for_agent_str name text role Hrole) as Hsan.
  destruct (ai_message_returns W now name display_name avatar (PStr text)
              (Py.get ev "raw_message") ev _ Hsan Htools) as [m Hm].
  exists m. split.
  - rewrite (process_ai_branch now ev Hkind), Hd, Ha, Hname, Hcontent. exact Hm.
  - apply ai_message_content in Hm as (content' & Hc & Hlook).
    rewrite Hsan in Hc. injection Hc as <-. exact Hlook.
Qed.

Lemma sanitize_with_falsy heading banned template content :
  Py.truthy content = false ->
  sanitize_with heading banned template content
  = sanitize_with heading banned template (PStr "").
Proof. unfold sanitize_with, Py.or_. intros ->. reflexivity. Qed.

(** X3: in the AI branch, for an agent name of the initial-access or of the
    summary role, a content that is falsy (absent, [None], empty, zero, an
    empty list) does not raise: the message comes back with the template of
    the role as content. *)
Theorem falsy_content_gets_template now ev name role template :
  message_kind ev = "ai" ->
  agent_name_of ev = PStr name ->
  classify_role (PStr name) = Ok role ->
  role_template role = Some template ->
  Py.truthy (content_of ev) = false ->
  registry_returns W ev = true ->
  tool_calls_return W ev = true ->
  exists m,
    process_cli_event W now ev = Ok m
    /\ m !! "content" = Some (PStr template).
Proof.
  intros Hkind Hname Hrole Htemplate Hfalsy Hreg Htools.
  destruct (registry_returns_names ev Hreg) as (display_name & avatar & Hd & Ha).
  assert (sanitize_for_agent (PStr name) (content_of ev) = Ok (PStr template))
    as Hsan.
  { rewrite sanitize_for_agent_by_role, Hrole. simpl.
    destruct role; simpl in Htemplate; injection Htemplate as <- || discriminate;
      unfold _sanitize_initial_access_output, _sanitize_summary_output;
      rewrite (sanitize_with_falsy _ _ _ _ Hfalsy); vm_compute; reflexivity. }
  destruct (ai_message_returns W now name display_name avatar (content_of ev)
              (Py.get ev "raw_message") ev _ Hsan Htools) as [m Hm].
  exists m. split.
  - rewrite (process_ai_branch now ev Hkind), Hd, Ha, Hname. exact Hm.
  - apply ai_message_content in Hm as (content' & Hc & Hlook).
    rewrite Hsan in Hc. injection Hc as <-. exact Hlook.
Qed.

End Branches.

(** X2 (witness): an event of type "system" of a summary agent, whose text
    names a shell. *)
Lemma ai_content_by_role_witness :
  exists m,
    process_cli_event sample_collaborators "1700000000.5" system_summary_event
    = Ok m
    /\ m !! "content" = Some (PStr _summary_safe_template).
Proof.
  apply (ai_content_by_role sample_collaborators "1700000000.5"
           system_summary_event "Summary Agent" "the shell was opened"
           SummaryRole); vm_compute; reflexivity.
Defined.

(** X3 (witness): the content is [None] and the agent is the initial-access
    agent. *)
Lemma falsy_content_gets_template_witness :
  exists m,
    process_cli_event sample_collaborators "1700000000.5"
      none_content_initial_access_event = Ok m
    /\ m !! "content" = Some (PStr _initial_access_safe_template).
Proof.
  apply (falsy_content_gets_template sample_collaborators "1700000000.5"
           none_content_initial_access_event "initial_access"
           InitialAccessRole); vm_compute; reflexivity.
Defined.

(** ** The shape of the messages *)

Section Shape.

Context (W : Collaborators).

Implicit Types (ev m : gmap string PyVal) (now : string).

Lemma py_lower_inv v s : Py.lower v = Ok s -> exists name, v = PStr name /\ s = PyStr.lower name.
Proof. destruct v; try discriminate. intros [= <-]. eauto. Qed.

(** What [_create_ai_message] has done when it returns. *)
Lemma ai_message_inv now agent_name display_name avatar content raw ev m :
  _create_ai_message W now agent_name display_name avatar content raw ev = Ok m ->
  exists name content' head h tool_calls,
    agent_name = PStr name
    /\ sanitize_for_agent agent_name content = Ok content'
    /\ Py.take 100 content' = Ok head
    /\ py_hash W head = Ok h
    /\ extract_tool_calls W raw ev = Ok tool_calls
    /\ m = (let message : gmap string PyVal :=
              <[ "type" := PStr "ai" ]>
              (<[ "agent_id" := PStr (PyStr.lower name) ]>
              (<[ "display_name" := display_name ]>
              (<[ "avatar" := avatar ]>
              (<[ "content" := content' ]>
              (<[ "id" := PStr ("ai_" +:+ PyStr.lower name +:+ "_" +:+ pretty h
                                +:+ "_" +:+ now) ]> ∅))))) in
            if Py.truthy tool_calls
            then <[ "tool_calls" := tool_calls ]> message else message).
Proof.
  unfold _create_ai_message.
  destruct (sanitize_for_agent agent_name content) as [content'|] eqn:Hsan;
    [|discriminate].
  simpl. destruct (Py.lower agent_name) as [agent_id|] eqn:Hlow; [|discriminate].
  apply py_lower_inv in Hlow as (name & -> & ->).
  simpl. destruct (Py.take 100 content') as [head|] eqn:Hhead; [|discriminate].
  simpl. destruct (py_hash W head) as [h|] eqn:Hh; [|discriminate].
  simpl. destruct (extract_tool_calls W raw ev) as [tool_calls|] eqn:Htc;
    [|discriminate].
  simpl. intros [= <-]. exists name, content', head, h, tool_calls.
  repeat split; trivial.
Qed.

Lemma tool_message_inv now ev content m :
  _create_tool_message W now ev content = Ok m ->
  exists parsed head h,
    parse_tool_name W (Py.get_or ev "tool_name" (PStr "Unknown Tool")) = Ok parsed
    /\ Py.take 100 content = Ok head
    /\ py_hash W head = Ok h
    /\ m = <[ "type" := PStr "tool" ]>
           (<[ "tool_name" := Py.get_or ev "tool_name" (PStr "Unknown Tool") ]>
           (<[ "tool_display_name" := Py.get_or ev "tool_display_name" parsed ]>
           (<[ "content" := content ]>
           (<[ "id" := PStr ("tool_"
                             +:+ py_format W (Py.get_or ev "tool_name" (PStr "Unknown Tool"))
                             +:+ "_" +:+ pretty h +:+ "_" +:+ now) ]> ∅)))).
Proof.
  unfold _create_tool_message.
  destruct (parse_tool_name W _) as [parsed|] eqn:Hparsed; [|discriminate].
  simpl. destruct (Py.take 100 content) as [head|] eqn:Hhead; [|discriminate].
  simpl. destruct (py_hash W head) as [h|] eqn:Hh; [|discriminate].
  simpl. intros [= <-]. exists parsed, head, h. repeat split; trivial.
Qed.

Lemma user_message_inv now content m :
  _create_user_message W now content = Ok m ->
  exists h,
    py_hash W content = Ok h
    /\ m = <[ "type" := PStr "user" ]>
           (<[ "content" := content ]>
           (<[ "id" := PStr ("user_" +:+ pretty h +:+ "_" +:+ now) ]> ∅)).
Proof.
  unfold _create_user_message.
  destruct (py_hash W content) as [h|] eqn:Hh; [|discriminate].
  simpl. intros [= <-]. eauto.
Qed.

(** A returned message comes from the builder of its branch. *)
Lemma process_inv now ev m :
  process_cli_event W now ev = Ok m ->
  exists display_name avatar,
    get_display_name W (agent_name_of ev) = Ok display_name
    /\ get_avatar W (agent_name_of ev) = Ok avatar
    /\ (message_kind ev = "ai"
        /\ _create_ai_message W now (agent_name_of ev) display_name avatar
             (content_of ev) (Py.get ev "raw_message") ev = Ok m
        \/ message_kind ev = "tool"
           /\ _create_tool_message W now ev (content_of ev) = Ok m
        \/ message_kind ev = "user"
           /\ _create_user_message W now (content_of ev) = Ok m).
Proof.
  intros Hm.
  destruct (message_kind_cases ev) as [Hk | [Hk | Hk]].
  - rewrite (process_ai_branch W now ev Hk) in Hm.
    destruct (get_display_name W _) as [d|] eqn:Hd; [|discriminate].
    destruct (get_avatar W _) as [a|] eqn:Ha; [|discriminate].
    exists d, a. split; [reflexivity|]. split; [reflexivity|]. left. auto.
  - rewrite (process_tool_branch W now ev Hk) in Hm.
    destruct (get_display_name W _) as [d|] eqn:Hd; [|discriminate].
    destruct (get_avatar W _) as [a|] eqn:Ha; [|discriminate].
    exists d, a. split; [reflexivity|]. split; [reflexivity|]. right. left. auto.
  - rewrite (process_user_branch W now ev Hk) in Hm.
    destruct (get_display_name W _) as [d|] eqn:Hd; [|discriminate].
    destruct (get_avatar W _) as [a|] eqn:Ha; [|discriminate].
    exists d, a. split; [reflexivity|]. split; [reflexivity|]. right. right. auto.
Qed.

Lemma prefix_app_l s t : String.prefix s (s +:+ t) = true.
Proof.
  induction s as [|c s IH]; [apply prefix_empty_l|].
  rewrite app_cons, prefix_cons, Ascii.eqb_refl. exact IH.
Qed.

(** X4: every message that the processor returns has the type of its branch
    ("tool", "user", and "ai" for every other message type), a content, and
    an id that is a string starting with that type and an underscore.  Only
    AI messages carry [agent_id], which is the lower-cased agent name, and
    [tool_calls], which is then never empty. *)
Theorem returned_message_shape now ev m :
  process_cli_event W now ev = Ok m ->
  m !! "type" = Some (PStr (message_kind ev))
  /\ is_Some (m !! "content")
  /\ (exists id, m !! "id" = Some (PStr id)
                 /\ String.prefix (message_kind ev +:+ "_") id = true)
  /\ (forall agent_id, m !! "agent_id" = Some agent_id ->
        message_kind ev = "ai"
        /\ exists name, agent_name_of ev = PStr name
                        /\ agent_id = PStr (PyStr.lower name))
  /\ (forall tool_calls, m !! "tool_calls" = Some tool_calls ->
        message_kind ev = "ai" /\ Py.truthy tool_calls = true).
Proof.
  intros (display_name & avatar & _ & _ & Hbranch)%process_inv.
  destruct Hbranch as [[Hk Hm] | [[Hk Hm] | [Hk Hm]]]; rewrite Hk.
  - apply ai_message_inv in Hm
      as (name & content' & head & h & tool_calls & Hname & _ & _ & _ & _ & ->).
    cbv zeta. destruct (Py.truthy tool_calls) eqn:Htruthy.
    all: split; [by simplify_map_eq|].
    all: split; [simplify_map_eq; eauto|].
    all: split;
      [eexists; split; [by simplify_map_eq | apply (prefix_app_l "ai_")]|].
    all: split; [intros agent_id Hag; simplify_map_eq; eauto|].
    all: intros tc Htc; simplify_map_eq; eauto.
  - apply tool_message_inv in Hm as (parsed & head & h & _ & _ & _ & ->).
    split; [by simplify_map_eq|].
    split; [simplify_map_eq; eauto|].
    split;
      [eexists; split; [by simplify_map_eq | apply (prefix_app_l "tool_")]|].
    split; [intros agent_id Hag; simplify_map_eq|].
    intros tc Htc; simplify_map_eq.
  - apply user_message_inv in Hm as (h & _ & ->).
    split; [by simplify_map_eq|].
    split; [simplify_map_eq; eauto|].
    split;
      [eexists; split; [by simplify_map_eq | apply (prefix_app_l "user_")]|].
    split; [intros agent_id Hag; simplify_map_eq|].
    intros tc Htc; simplify_map_eq.
Qed.

End Shape.

(** X4 (witness): the tool event of the specification. *)
Lemma returned_message_shape_witness :
  exists m,
    process_cli_event sample_collaborators "1700000000.5" nmap_tool_event = Ok m
    /\ m !! "type" = Some (PStr "tool")
    /\ m !! "id" = Some (PStr "tool_nmap_scan_7_1700000000.5").
Proof.
  destruct (process_cli_event sample_collaborators "1700000000.5" nmap_tool_event)
    as [m|e] eqn:Hm; [|vm_compute in Hm; discriminate Hm].
  exists m. split; [reflexivity|].
  split; [exact (proj1 (returned_message_shape _ _ _ _ Hm))|].
  vm_compute in Hm. injection Hm as <-. vm_compute. reflexivity.
Defined.

(** ** Which events are accepted *)

Section Accepted.

Context (W : Collaborators).

Implicit Types (ev m : gmap string PyVal) (now : string).

Lemma is_str_inv v : is_str v = true -> exists s, v = PStr s.
Proof. destruct v; try discriminate. eauto. Qed.

Lemma tool_name_parses_inv ev :
  tool_name_parses W ev = true ->
  exists parsed,
    parse_tool_name W (Py.get_or ev "tool_name" (PStr "Unknown Tool")) = Ok parsed.
Proof. unfold tool_name_parses. apply not_raises. Qed.

(** X5: the processor returns a message for every event, of every message
    type, whose agent name and content are strings (absent fields counting
    with their defaults), as long as the collaborators return. *)
Theorem string_fields_are_accepted now ev :
  is_str (agent_name_of ev) = true ->
  is_str (content_of ev) = true ->
  registry_returns W ev = true ->
  tool_calls_return W ev = true ->
  tool_name_parses W ev = true ->
  exists m, process_cli_event W now ev = Ok m.
Proof.
  intros [name Hname]%is_str_inv [text Hcontent]%is_str_inv Hreg Htools Hparse.
  destruct (registry_returns_names W ev Hreg) as (display_name & avatar & Hd & Ha).
  destruct (message_kind_cases ev) as [Hk | [Hk | Hk]].
  - rewrite (process_ai_branch W now ev Hk), Hd, Ha, Hname, Hcontent. simpl.
    pose proof (classify_role_str name) as Hrole.
    eapply ai_message_returns; [|exact Htools].
    apply sanitize_for_agent_str, Hrole.
  - rewrite (process_tool_branch W now ev Hk), Hd, Ha, Hcontent. simpl.
    apply tool_name_parses_inv in Hparse as [parsed Hparsed].
    unfold _create_tool_message. rewrite Hparsed. simpl. eauto.
  - rewrite (process_user_branch W now ev Hk), Hd, Ha, Hcontent. simpl.
    unfold _create_user_message. simpl. eauto.
Qed.

(** X6: in the AI branch the agent name has to be a string.  For every
    other value, also [None] and the other falsy values that both role tests
    accept, the processor raises. *)
Theorem ai_branch_needs_string_agent_name now ev :
  message_kind ev = "ai" ->
  is_str (agent_name_of ev) = false ->
  raises (process_cli_event W now ev) = true.
Proof.
  intros Hk Hname. rewrite (process_ai_branch W now ev Hk).
  destruct (get_display_name W _) as [display_name|]; [|reflexivity].
  destruct (get_avatar W _) as [avatar|]; [|reflexivity]. simpl.
  unfold _create_ai_message, sanitize_for_agent, _is_initial_access_agent,
    _is_summary_agent, role_val, Py.or_.
  destruct (agent_name_of ev) as [| b | z | s | l]; try discriminate.
  - reflexivity.
  - destruct b; reflexivity.
  - simpl Py.truthy. destruct (negb (z =? 0)%Z); reflexivity.
  - destruct l; reflexivity.
Qed.

(** X7: the tool branch needs a string content: for [None], a number or a
    list the processor raises, and so it does in the AI branch for an agent
    name of the other role. *)
Theorem unsanitized_content_must_be_string now ev :
  message_kind ev = "tool"
  \/ (message_kind ev = "ai"
      /\ exists name, agent_name_of ev = PStr name
                      /\ classify_role (PStr name) = Ok OtherRole) ->
  is_str (content_of ev) = false ->
  raises (process_cli_event W now ev) = true.
Proof.
  intros [Hk | (Hk & name & Hname & Hrole)] Hcontent.
  - rewrite (process_tool_branch W now ev Hk).
    destruct (get_display_name W _) as [display_name|]; [|reflexivity].
    destruct (get_avatar W _) as [avatar|]; [|reflexivity]. simpl.
    unfold _create_tool_message.
    destruct (parse_tool_name W _) as [parsed|]; [|reflexivity]. simpl.
    destruct (content_of ev); try discriminate; reflexivity.
  - rewrite (process_ai_branch W now ev Hk).
    destruct (get_display_name W _) as [display_name|]; [|reflexivity].
    destruct (get_avatar W _) as [avatar|]; [|reflexivity]. simpl.
    unfold _create_ai_message.
    rewrite Hname, sanitize_for_agent_by_role, Hrole. simpl.
    destruct (content_of ev); try discriminate; reflexivity.
Qed.

(** X8: the user branch hashes the whole content.  When the registry
    returns, a user event whose content is a list raises, and a user event
    whose content is [None], a boolean, an integer or a string is accepted:
    the message comes back with that content. *)
Theorem user_content_must_be_hashable now ev :
  message_kind ev = "user" ->
  registry_returns W ev = true ->
  ((exists l, content_of ev = PList l) ->
   raises (process_cli_event W now ev) = true)
  /\ (is_scalar (content_of ev) = true ->
      exists m,
        process_cli_event W now ev = Ok m
        /\ m !! "content" = Some (content_of ev)).
Proof.
  intros Hk Hreg.
  destruct (registry_returns_names W ev Hreg) as (display_name & avatar & Hd & Ha).
  rewrite (process_user_branch W now ev Hk), Hd, Ha. simpl.
  unfold _create_user_message. split.
  - intros [l ->]. reflexivity.
  - destruct (content_of ev) as [| b | z | s | l]; try discriminate; intros _;
      simpl; (eexists; split; [reflexivity | by simplify_map_eq]).
Qed.

(** X9: a tool message keeps the tool name of the event, "Unknown Tool"
    when there is none, and shows the display name of the event when the
    event has one and the parsed tool name otherwise.  The tool name is parsed
    in both cases, so the message is returned only if the parser returns. *)
Theorem tool_message_names now ev m :
  message_kind ev = "tool" ->
  process_cli_event W now ev = Ok m ->
  exists parsed,
    parse_tool_name W (Py.get_or ev "tool_name" (PStr "Unknown Tool")) = Ok parsed
    /\ m !! "tool_name" = Some (Py.get_or ev "tool_name" (PStr "Unknown Tool"))
    /\ m !! "tool_display_name"
       = Some (default parsed (ev !! "tool_display_name")).
Proof.
  intros Hk (display_name & avatar & _ & _ & Hbranch)%process_inv.
  destruct Hbranch as [[Hk' _] | [[_ Hm] | [Hk' _]]]; try congruence.
  apply tool_message_inv in Hm as (parsed & head & h & Hparsed & _ & _ & ->).
  exists parsed. split; [exact Hparsed|]. split; by simplify_map_eq.
Qed.

End Accepted.

(** X5 (witness): an event with no field at all. *)
Lemma string_fields_are_accepted_witness :
  exists m, process_cli_event sample_collaborators "1700000000.5" ∅ = Ok m.
Proof.
  apply string_fields_are_accepted; vm_compute; reflexivity.
Defined.

(** X6 (witness): the agent name is [None]. *)
Lemma ai_branch_needs_string_agent_name_witness :
  raises (process_cli_event sample_collaborators "1700000000.5" none_agent_event)
  = true.
Proof.
  apply ai_branch_needs_string_agent_name; vm_compute; reflexivity.
Defined.

(** X7 (witness): the content of a tool event is a list of lines. *)
Lemma unsanitized_content_must_be_string_witness :
  raises (process_cli_event sample_collaborators "1700000000.5"
            list_content_tool_event) = true.
Proof.
  apply unsanitized_content_must_be_string; [left|]; vm_compute; reflexivity.
Defined.

(** X8 (witness): a user event with content [None] is accepted. *)
Lemma user_content_must_be_hashable_witness :
  exists m,
    process_cli_event sample_collaborators "1700000000.5"
      none_content_user_event = Ok m
    /\ m !! "content" = Some PNone.
Proof.
  destruct (user_content_must_be_hashable sample_collaborators "1700000000.5"
              none_content_user_event) as [_ Hscalar];
    [vm_compute; reflexivity | vm_compute; reflexivity |].
  apply Hscalar. reflexivity.
Defined.

(** X9 (witness): the event brings "Port scan" as display name. *)
Lemma tool_message_names_witness :
  exists m,
    process_cli_event sample_collaborators "1700000000.5" named_tool_event = Ok m
    /\ m !! "tool_display_name" = Some (PStr "Port scan").
Proof.
  destruct (process_cli_event sample_collaborators "1700000000.5" named_tool_event)
    as [m|e] eqn:Hm; [|vm_compute in Hm; discriminate Hm].
  exists m. split; [reflexivity|].
  destruct (tool_message_names sample_collaborators "1700000000.5"
              named_tool_event m) as (parsed & _ & _ & Hdisplay);
    [vm_compute; reflexivity | exact Hm |].
  exact Hdisplay.
Defined.

(** ** Classifying and detecting duplicates *)

Section ClassifyThenDetect.

Context (W : Collaborators).

Implicit Types (ev m msg : gmap string PyVal) (now : string).

Lemma duplicate_of_one new_message msg :
  Py.truthy (Py.get new_message "id") = true ->
  same_fields msg new_message ->
  is_duplicate_message new_message [msg] = true.
Proof.
  intros Hid Hsame. unfold is_duplicate_message. rewrite Hid. simpl.
  destruct (Py.eq (Py.get msg "id") _); simpl; [reflexivity|].
  rewrite (content_check_same _ _ Hsame). reflexivity.
Qed.

Lemma duplicate_by_id new_message msg :
  Py.truthy (Py.get new_message "id") = true ->
  msg !! "id" = new_message !! "id" ->
  is_duplicate_message new_message [msg] = true.
Proof.
  intros Hid Hsame. unfold is_duplicate_message. rewrite Hid. simpl.
  rewrite (get_same _ _ _ Hsame), py_eq_refl. reflexivity.
Qed.

Lemma returned_id_truthy now ev m :
  process_cli_event W now ev = Ok m -> Py.truthy (Py.get m "id") = true.
Proof.
  intros (display_name & avatar & _ & _ & Hbranch)%process_inv.
  destruct Hbranch as [[_ Hm] | [[_ Hm] | [_ Hm]]].
  - apply ai_message_inv in Hm
      as (name & content' & head & h & tool_calls & _ & _ & _ & _ & _ & ->).
    cbv zeta. unfold Py.get. destruct (Py.truthy tool_calls); by simplify_map_eq.
  - apply tool_message_inv in Hm as (parsed & head & h & _ & _ & _ & ->).
    unfold Py.get. by simplify_map_eq.
  - apply user_message_inv in Hm as (h & _ & ->).
    unfold Py.get. by simplify_map_eq.
Qed.

Lemma returned_content now ev m :
  process_cli_event W now ev = Ok m -> is_Some (m !! "content").
Proof.
  intros (display_name & avatar & _ & _ & Hbranch)%process_inv.
  destruct Hbranch as [[_ Hm] | [[_ Hm] | [_ Hm]]].
  - apply ai_message_content in Hm as (c & _ & ->). eauto.
  - apply tool_message_content in Hm as ->. eauto.
  - apply user_message_content in Hm as ->. eauto.
Qed.

(** The fields other than the id do not depend on the clock. *)
Lemma returned_fields_clock t1 t2 ev m1 m2 k :
  process_cli_event W t1 ev = Ok m1 ->
  process_cli_event W t2 ev = Ok m2 ->
  k <> "id" -> m1 !! k = m2 !! k.
Proof.
  intros H1 H2 Hk.
  assert (delete "id" m1 = delete "id" m2) as Hdel.
  { destruct (message_kind_cases ev) as [Hkind | [Hkind | Hkind]].
    - rewrite (process_ai_branch W t1 ev Hkind) in H1.
      rewrite (process_ai_branch W t2 ev Hkind) in H2.
      destruct (get_display_name W _) as [d|]; [|discriminate].
      destruct (get_avatar W _) as [a|]; [|discriminate]. simpl in H1, H2.
      pose proof (ai_message_clock W t1 t2 (agent_name_of ev) d a (content_of ev)
                    (Py.get ev "raw_message") ev) as Hc.
      rewrite H1, H2 in Hc. injection Hc as Hc. exact Hc.
    - rewrite (process_tool_branch W t1 ev Hkind) in H1.
      rewrite (process_tool_branch W t2 ev Hkind) in H2.
      destruct (get_display_name W _) as [d|]; [|discriminate].
      destruct (get_avatar W _) as [a|]; [|discriminate]. simpl in H1, H2.
      pose proof (tool_message_clock W t1 t2 ev (content_of ev)) as Hc.
      rewrite H1, H2 in Hc. injection Hc as Hc. exact Hc.
    - rewrite (process_user_branch W t1 ev Hkind) in H1.
      rewrite (process_user_branch W t2 ev Hkind) in H2.
      destruct (get_display_name W _) as [d|]; [|discriminate].
      destruct (get_avatar W _) as [a|]; [|discriminate]. simpl in H1, H2.
      pose proof (user_message_clock W t1 t2 (content_of ev)) as Hc.
      rewrite H1, H2 in Hc. injection Hc as Hc. exact Hc. }
  rewrite <- (lookup_delete_ne m1 "id" k), <- (lookup_delete_ne m2 "id" k), Hdel
    by (intros Heq; apply Hk; symmetry; exact Heq).
  reflexivity.
Qed.

(** X10: an event that is delivered again is always detected.  When the same
    event is classified at two readings of the clock, the second message is a
    duplicate of the first, by the id when the readings are equal and by type,
    agent id and content when they are not. *)
Theorem redelivered_event_is_duplicate t1 t2 ev m1 m2 :
  process_cli_event W t1 ev = Ok m1 ->
  process_cli_event W t2 ev = Ok m2 ->
  is_duplicate_message m2 [m1] = true.
Proof.
  intros H1 H2. apply duplicate_of_one.
  - exact (returned_id_truthy t2 ev m2 H2).
  - split; [|split].
    + apply (returned_fields_clock t1 t2 ev); trivial. discriminate.
    + apply (returned_fields_clock t1 t2 ev); trivial. discriminate.
    + destruct (returned_content t1 ev m1 H1) as [c Hc]. exists c.
      split; [exact Hc|].
      rewrite <- (returned_fields_clock t1 t2 ev m1 m2 "content" H1 H2); trivial.
      discriminate.
Qed.

(** X11: the duplicate test never looks at the tool name.  Two tool
    messages with the same content are duplicates of each other whatever the
    tools, the clock readings and the ids are, and so are two user messages
    with the same content. *)
Theorem same_content_is_duplicate t1 t2 ev1 ev2 m1 m2 :
  message_kind ev1 = message_kind ev2 ->
  message_kind ev1 <> "ai" ->
  content_of ev1 = content_of ev2 ->
  process_cli_event W t1 ev1 = Ok m1 ->
  process_cli_event W t2 ev2 = Ok m2 ->
  is_duplicate_message m2 [m1] = true.
Proof.
  intros Hkinds Hnot_ai Hcontent H1 H2. apply duplicate_of_one.
  { exact (returned_id_truthy t2 ev2 m2 H2). }
  apply process_inv in H1 as (d1 & a1 & _ & _ & Hb1).
  apply process_inv in H2 as (d2 & a2 & _ & _ & Hb2).
  destruct Hb1 as [[Hk1 _] | [[Hk1 Hm1] | [Hk1 Hm1]]]; [congruence| |];
    destruct Hb2 as [[Hk2 _] | [[Hk2 Hm2] | [Hk2 Hm2]]]; try congruence.
  - apply tool_message_inv in Hm1 as (p1 & hd1 & h1 & _ & _ & _ & ->).
    apply tool_message_inv in Hm2 as (p2 & hd2 & h2 & _ & _ & _ & ->).
    rewrite Hcontent. split; [by simplify_map_eq|]. split; [by simplify_map_eq|].
    exists (content_of ev2). split; by simplify_map_eq.
  - apply user_message_inv in Hm1 as (h1 & _ & ->).
    apply user_message_inv in Hm2 as (h2 & _ & ->).
    rewrite Hcontent. split; [by simplify_map_eq|]. split; [by simplify_map_eq|].
    exists (content_of ev2). split; by simplify_map_eq.
Qed.

Lemma take_str_inv content head :
  Py.take 100 (PStr content) = Ok head -> head = PStr (PyStr.take 100 content).
Proof. intros [= <-]. reflexivity. Qed.

(** X12: the id of a tool message reads the content through its first 100
    characters only.  Two tool events of the same tool whose string contents
    agree on the first 100 characters get the same id at the same reading of
    the clock, and the second message is then a duplicate of the first,
    although the contents may differ. *)
Theorem long_contents_share_id now ev1 ev2 text1 text2 m1 m2 :
  message_kind ev1 = "tool" ->
  message_kind ev2 = "tool" ->
  Py.get_or ev1 "tool_name" (PStr "Unknown Tool")
  = Py.get_or ev2 "tool_name" (PStr "Unknown Tool") ->
  content_of ev1 = PStr text1 ->
  content_of ev2 = PStr text2 ->
  PyStr.take 100 text1 = PyStr.take 100 text2 ->
  process_cli_event W now ev1 = Ok m1 ->
  process_cli_event W now ev2 = Ok m2 ->
  m1 !! "id" = m2 !! "id" /\ is_duplicate_message m2 [m1] = true.
Proof.
  intros Hk1 Hk2 Htool Hc1 Hc2 Htake H1 H2.
  assert (m1 !! "id" = m2 !! "id") as Hid.
  { apply process_inv in H1 as (d1 & a1 & _ & _ & Hb1).
    apply process_inv in H2 as (d2 & a2 & _ & _ & Hb2).
    destruct Hb1 as [[Hk1' _] | [[_ Hm1] | [Hk1' _]]]; try congruence.
    destruct Hb2 as [[Hk2' _] | [[_ Hm2] | [Hk2' _]]]; try congruence.
    apply tool_message_inv in Hm1 as (p1 & hd1 & h1 & _ & Hhd1 & Hh1 & ->).
    apply tool_message_inv in Hm2 as (p2 & hd2 & h2 & _ & Hhd2 & Hh2 & ->).
    rewrite Hc1 in Hhd1. rewrite Hc2 in Hhd2.
    apply take_str_inv in Hhd1, Hhd2. subst hd1 hd2.
    rewrite Htake in Hh1. rewrite Hh1 in Hh2. injection Hh2 as ->.
    rewrite Htool. by simplify_map_eq. }
  split; [exact Hid|].
  apply duplicate_by_id; [|exact Hid].
  exact (returned_id_truthy now ev2 m2 H2).
Qed.

End ClassifyThenDetect.

(** X10 (witness): the user event, at two readings of the clock. *)
Lemma redelivered_event_is_duplicate_witness :
  exists m1 m2,
    process_cli_event sample_collaborators "1700000000.5" hello_user_event = Ok m1
    /\ process_cli_event sample_collaborators "1700000001.5" hello_user_event
       = Ok m2
    /\ m1 !! "id" <> m2 !! "id"
    /\ is_duplicate_message m2 [m1] = true.
Proof.
  destruct (process_cli_event sample_collaborators "1700000000.5" hello_user_event)
    as [m1|e] eqn:H1; [|vm_compute in H1; discriminate H1].
  destruct (process_cli_event sample_collaborators "1700000001.5" hello_user_event)
    as [m2|e] eqn:H2; [|vm_compute in H2; discriminate H2].
  exists m1, m2. split; [reflexivity|]. split; [reflexivity|]. split.
  - vm_compute in H1, H2. injection H1 as <-. injection H2 as <-.
    vm_compute. discriminate.
  - exact (redelivered_event_is_duplicate sample_collaborators _ _ _ _ _ H1 H2).
Defined.

(** X11 (witness): the same output "done" from two tools. *)
Lemma same_content_is_duplicate_witness :
  exists m1 m2,
    process_cli_event sample_collaborators "1700000000.5" scan_done_event = Ok m1
    /\ process_cli_event sample_collaborators "1700000001.5" brute_done_event
       = Ok m2
    /\ m1 !! "tool_name" <> m2 !! "tool_name"
    /\ is_duplicate_message m2 [m1] = true.
Proof.
  destruct (process_cli_event sample_collaborators "1700000000.5" scan_done_event)
    as [m1|e] eqn:H1; [|vm_compute in H1; discriminate H1].
  destruct (process_cli_event sample_collaborators "1700000001.5" brute_done_event)
    as [m2|e] eqn:H2; [|vm_compute in H2; discriminate H2].
  exists m1, m2. split; [reflexivity|]. split; [reflexivity|]. split.
  - vm_compute in H1, H2. injection H1 as <-. injection H2 as <-.
    vm_compute. discriminate.
  - apply (same_content_is_duplicate sample_collaborators
             "1700000000.5" "1700000001.5" scan_done_event brute_done_event
             m1 m2); [reflexivity | | | exact H1 | exact H2].
    + vm_compute. discriminate.
    + vm_compute. reflexivity.
Defined.

(** X12 (witness): two outputs that differ after their first 100 characters. *)
Lemma long_contents_share_id_witness :
  exists m1 m2,
    process_cli_event sample_collaborators "1700000000.5"
      (tool_event "nmap_scan" (PStr long_output_a)) = Ok m1
    /\ process_cli_event sample_collaborators "1700000000.5"
         (tool_event "nmap_scan" (PStr long_output_b)) = Ok m2
    /\ m1 !! "content" <> m2 !! "content"
    /\ is_duplicate_message m2 [m1] = true.
Proof.
  destruct (process_cli_event sample_collaborators "1700000000.5"
              (tool_event "nmap_scan" (PStr long_output_a)))
    as [m1|e] eqn:H1; [|vm_compute in H1; discriminate H1].
  destruct (process_cli_event sample_collaborators "1700000000.5"
              (tool_event "nmap_scan" (PStr long_output_b)))
    as [m2|e] eqn:H2; [|vm_compute in H2; discriminate H2].
  exists m1, m2. split; [reflexivity|]. split; [reflexivity|]. split.
  - vm_compute in H1, H2. injection H1 as <-. injection H2 as <-.
    vm_compute. discriminate.
  - apply (long_contents_share_id sample_collaborators "1700000000.5"
             (tool_event "nmap_scan" (PStr long_output_a))
             (tool_event "nmap_scan" (PStr long_output_b))
             long_output_a long_output_b m1 m2);
      try exact H1; try exact H2; vm_compute; reflexivity.
Defined.

(** ** The list of existing messages *)

Section ExistingList.

Implicit Types (m msg : gmap string PyVal) (l : list (gmap string PyVal)).

(** X13: nothing is a duplicate of the empty list, and the duplicate test
    over a concatenation is the disjunction of the tests over the parts; so a
    message that is a duplicate stays one when the list grows. *)
Theorem duplicate_over_append m l1 l2 :
  is_duplicate_message m [] = false
  /\ is_duplicate_message m (l1 ++ l2)
     = is_duplicate_message m l1 || is_duplicate_message m l2.
Proof.
  unfold is_duplicate_message.
  destruct (negb (Py.truthy (Py.get m "id"))); [split; reflexivity|].
  split; [reflexivity|].
  rewrite !existsb_app.
  destruct (existsb _ l1), (existsb _ l2), (existsb _ l1), (existsb _ l2);
    reflexivity.
Qed.

Lemma existsb_permutation {A} (p : A -> bool) (l1 l2 : list A) :
  Permutation l1 l2 -> existsb p l1 = existsb p l2.
Proof.
  induction 1 as [|x l1 l2 _ IH|x y l|l1 l2 l3 _ IH1 _ IH2]; simpl.
  - reflexivity.
  - rewrite IH. reflexivity.
  - destruct (p x), (p y); reflexivity.
  - congruence.
Qed.

(** X14: the order of the existing messages does not matter: the duplicate
    test gives the same answer on every permutation of the list. *)
Theorem duplicate_order_irrelevant m l1 l2 :
  Permutation l1 l2 ->
  is_duplicate_message m l1 = is_duplicate_message m l2.
Proof.
  intros Hperm. unfold is_duplicate_message.
  rewrite !(existsb_permutation _ l1 l2 Hperm). reflexivity.
Qed.

End ExistingList.

(** X14 (witness): two messages in both orders. *)
Lemma duplicate_order_irrelevant_witness :
  is_duplicate_message (ai_message (Some (PStr "ai_recon_7_1700000001.5")) "recon" "done")
    [ai_message (Some (PStr "ai_plan_7_1700000000.1")) "planner" "plan";
     ai_message (Some (PStr "ai_recon_7_1700000000.5")) "recon" "done"]
  = is_duplicate_message (ai_message (Some (PStr "ai_recon_7_1700000001.5")) "recon" "done")
      [ai_message (Some (PStr "ai_recon_7_1700000000.5")) "recon" "done";
       ai_message (Some (PStr "ai_plan_7_1700000000.1")) "planner" "plan"].
Proof. apply duplicate_order_irrelevant. apply perm_swap. Defined.

(** ** More on the status *)

Section StatusFacts.

Implicit Types (e : gmap string PyVal) (events : list (gmap string PyVal)).

Lemma scan_find (l : list (gmap string PyVal)) :
  scan_active_agent l
  = match List.find names_active_agent l with
    | Some e => s ← Py.lower (Py.get e "agent_name"); Ok (PStr s)
    | None => Ok PNone
    end.
Proof.
  induction l as [|e l IH]; [reflexivity|].
  simpl. unfold names_active_agent. rewrite <- andb_assoc.
  destruct (Py.eq (Py.get e "type") (PStr "message")
            && Py.eq (Py.get e "message_type") (PStr "ai")); simpl; [|exact IH].
  destruct (Py.truthy (Py.get e "agent_name")
            && negb (Py.eq (Py.get e "agent_name") (PStr "Unknown")));
    [reflexivity | exact IH].
Qed.

Lemma lower_nonempty s : PyStr.nonempty s = true -> PyStr.lower s <> "".
Proof. destruct s; [discriminate|]. simpl. discriminate. Qed.

Lemma message_count_le events : message_count events <= length events.
Proof. unfold message_count. apply filter_length_le. Qed.

(** X15: when every agent name in the history is a string, [None] or
    absent, [extract_agent_status] returns a status.  Its [active_agent] is
    [None] or a non-empty string that is already lower case,
    [completed_agents] is the empty list, and [current_step] is the number of
    events with envelope type "message", at most the length of the history. *)
Theorem status_of_well_typed_history events :
  forallb agent_name_well_typed events = true ->
  exists status,
    extract_agent_status events = Ok status
    /\ (status !! "active_agent" = Some PNone
        \/ exists s, status !! "active_agent" = Some (PStr s)
                     /\ PyStr.lower s = s /\ s <> "")
    /\ status !! "completed_agents" = Some (PList [])
    /\ status !! "current_step" = Some (PInt (Z.of_nat (message_count events)))
    /\ message_count events <= length events.
Proof.
  intros Htyped. unfold extract_agent_status. rewrite scan_find.
  destruct (List.find names_active_agent (rev events)) as [e|] eqn:Hfind.
  - apply find_some in Hfind as [Hin Hnames].
    apply in_rev in Hin.
    rewrite forallb_forall in Htyped. specialize (Htyped e Hin).
    unfold agent_name_well_typed in Htyped. unfold names_active_agent in Hnames.
    apply andb_true_iff in Hnames as [Hnames _].
    apply andb_true_iff in Hnames as [_ Htruthy].
    destruct (Py.get e "agent_name") as [| | |s|]; try discriminate.
    simpl. eexists. split; [reflexivity|].
    split; [right; exists (PyStr.lower s)|].
    + split; [by simplify_map_eq|]. split; [apply lower_idem|].
      apply lower_nonempty, Htruthy.
    + split; [by simplify_map_eq|]. split; [by simplify_map_eq|].
      apply message_count_le.
  - simpl. eexists. split; [reflexivity|].
    split; [left; by simplify_map_eq|].
    split; [by simplify_map_eq|]. split; [by simplify_map_eq|].
    apply message_count_le.
Qed.

Lemma scan_raises_inv (l : list (gmap string PyVal)) :
  raises (scan_active_agent l) = true ->
  exists skipped e rest,
    l = skipped ++ e :: rest
    /\ forallb (fun e' => negb (names_active_agent e')) skipped = true
    /\ names_active_agent e = true
    /\ is_str (Py.get e "agent_name") = false.
Proof.
  induction l as [|e l IH]; [discriminate|].
  rewrite scan_find. simpl List.find.
  destruct (names_active_agent e) eqn:Hnames.
  - intros Hraise. exists [], e, l. repeat split; trivial.
    destruct (Py.get e "agent_name"); try reflexivity. discriminate.
  - rewrite <- scan_find. intros (skipped & e' & rest & -> & Hs & He & Hn)%IH.
    exists (e :: skipped), e', rest. repeat split; trivial.
    simpl. rewrite Hnames, Hs. reflexivity.
Qed.

(** X16: [extract_agent_status] raises exactly when the most recent event
    with envelope type "message", message type "ai" and an agent name that is
    truthy and not "Unknown" has an agent name that is not a string; what the
    older events hold does not matter. *)
Theorem status_raises_iff events :
  raises (extract_agent_status events) = true
  <-> exists older e newer,
        events = older ++ e :: newer
        /\ names_active_agent e = true
        /\ forallb (fun e' => negb (names_active_agent e')) newer = true
        /\ is_str (Py.get e "agent_name") = false.
Proof.
  assert (raises (extract_agent_status events)
          = raises (scan_active_agent (rev events))) as ->.
  { unfold extract_agent_status.
    destruct (scan_active_agent (rev events)); reflexivity. }
  split.
  - intros (skipped & e & rest & Hrev & Hs & He & Hn)%scan_raises_inv.
    exists (rev rest), e, (rev skipped). repeat split; trivial.
    + rewrite <- (rev_involutive events), Hrev, rev_app_distr. simpl.
      rewrite <- app_assoc. reflexivity.
    + rewrite forallb_rev. exact Hs.
  - intros (older & e & newer & -> & He & Hnewer & Hn).
    rewrite rev_app_distr. simpl rev. rewrite <- app_assoc. simpl app.
    rewrite scan_skips by (rewrite forallb_rev; exact Hnewer).
    rewrite scan_find. simpl List.find. rewrite He.
    destruct (Py.get e "agent_name"); try reflexivity. discriminate.
Qed.

End StatusFacts.

(** X15 (witness): the sample history. *)
Lemma status_of_well_typed_history_witness :
  exists status,
    extract_agent_status sample_history = Ok status
    /\ status !! "current_step" = Some (PInt 4).
Proof.
  destruct (status_of_well_typed_history sample_history)
    as (status & Hs & _ & _ & Hstep & _); [vm_compute; reflexivity|].
  exists status. split; [exact Hs | exact Hstep].
Defined.

(** X16 (witness): the most recent agent name is the number 5, and an older
    event has a proper name. *)
Lemma status_raises_iff_witness :
  raises (extract_agent_status numeric_name_history) = true.
Proof.
  apply status_raises_iff.
  exists [envelope "ai" (PStr "Planner")], (envelope "ai" (PInt 5)),
    [envelope "tool" (PStr "Scanner")].
  split; [reflexivity|]. repeat split; vm_compute; reflexivity.
Defined.

(** ** More on roles and on the gate *)

Section RoleAndGate.

Lemma contains_map_padded (h : ascii -> ascii) a t z l s r :
  PyStr.ends_with z (String a t) = true ->
  (forall c, PyStr.is_space c = true -> negb (Ascii.eqb a (h c)) = true) ->
  (forall c, PyStr.is_space c = true -> negb (Ascii.eqb (h c) z) = true) ->
  PyStr.all_chars PyStr.is_space l = true ->
  PyStr.all_chars PyStr.is_space r = true ->
  PyStr.contains (String a t) (PyStr.map h (l +:+ s +:+ r))
  = PyStr.contains (String a t) (PyStr.map h s).
Proof.
  intros Hend Hfirst Hlast Hl Hr. rewrite !map_app.
  rewrite contains_skip_left, (contains_skip_right z); trivial.
  - eapply all_chars_map, Hr. exact Hlast.
  - eapply all_chars_map, Hl. exact Hfirst.
Qed.

(** X17: white space around an agent name and the case of its letters never
    change its role. *)
Theorem role_ignores_padding_and_case name l r :
  PyStr.all_chars PyStr.is_space l = true ->
  PyStr.all_chars PyStr.is_space r = true ->
  classify_role (PStr (l +:+ name +:+ r)) = classify_role (PStr name)
  /\ classify_role (PStr (PyStr.lower name)) = classify_role (PStr name).
Proof.
  intros Hl Hr. rewrite !classify_role_str, lower_idem. split; [|reflexivity].
  unfold normalize_separators, PyStr.lower. rewrite !map_map.
  rewrite (contains_map_padded _ "i" "nitial_access" "s" l name r);
    [|reflexivity| | |exact Hl|exact Hr];
    try (intros [[] [] [] [] [] [] [] []]; vm_compute;
         first [reflexivity | discriminate]).
  rewrite (contains_map_padded _ "s" "ummary" "y" l name r);
    [|reflexivity| | |exact Hl|exact Hr];
    try (intros [[] [] [] [] [] [] [] []]; vm_compute;
         first [reflexivity | discriminate]).
  reflexivity.
Qed.

Lemma prefix_app_r t s b :
  String.prefix t s = true -> String.prefix t (s +:+ b) = true.
Proof.
  revert s. induction t as [|a t IH]; intros s; [intros _; apply prefix_empty_l|].
  destruct s as [|c s]; [discriminate|].
  rewrite app_cons, !prefix_cons. intros [Hc Ht]%andb_true_iff.
  rewrite Hc, (IH s Ht). reflexivity.
Qed.

Lemma contains_app_r t s b :
  PyStr.contains t s = true -> PyStr.contains t (s +:+ b) = true.
Proof.
  induction s as [|c s IH].
  - simpl. rewrite orb_false_r. intros Hp.
    destruct t; [|discriminate]. destruct b; reflexivity.
  - rewrite app_cons, !contains_cons.
    intros [Hp | Hc]%orb_true_iff.
    + rewrite <- app_cons, (prefix_app_r _ _ _ Hp). reflexivity.
    + rewrite (IH Hc). apply orb_true_r.
Qed.

Lemma contains_app_l t a s :
  PyStr.contains t s = true -> PyStr.contains t (a +:+ s) = true.
Proof.
  intros Hs. induction a as [|c a IH]; [exact Hs|].
  rewrite app_cons, contains_cons, IH. apply orb_true_r.
Qed.

Lemma lower_app s t : PyStr.lower (s +:+ t) = PyStr.lower s +:+ PyStr.lower t.
Proof. apply map_app. Qed.

Lemma sanitize_with_banned heading banned template before text after term :
  In term banned ->
  PyStr.contains term (PyStr.lower text) = true ->
  sanitize_with heading banned template (PStr (before +:+ text +:+ after))
  = Ok template.
Proof.
  intros Hin Hterm. rewrite sanitize_with_str.
  destruct (passes_gate _ _ _) eqn:Hgate; [|reflexivity].
  apply passes_gate_spec in Hgate as [_ Hnone].
  specialize (Hnone term Hin). rewrite !lower_app in Hnone.
  rewrite (contains_app_l _ _ _ (contains_app_r _ _ _ Hterm)) in Hnone.
  discriminate.
Qed.

(** X18: no context rescues a banned term.  When a text contains a banned
    term of a sanitizer, in any letter case, that sanitizer replaces every
    text that contains it, whatever is written before and after it (a heading
    included), by its template. *)
Theorem banned_text_is_never_rescued before text after term :
  PyStr.contains term (PyStr.lower text) = true ->
  (In term initial_access_banned_terms ->
   _sanitize_initial_access_output (PStr (before +:+ text +:+ after))
   = Ok _initial_access_safe_template)
  /\ (In term summary_banned_terms ->
      _sanitize_summary_output (PStr (before +:+ text +:+ after))
      = Ok _summary_safe_template).
Proof.
  intros Hterm. split; intros Hin; eapply sanitize_with_banned; eassumption.
Qed.

End RoleAndGate.

(** X17 (witness): a tab and spaces around "Summary", in capitals. *)
Lemma role_ignores_padding_and_case_witness :
  classify_role (PStr (String "009" " " +:+ "SUMMARY" +:+ "  "))
  = classify_role (PStr "SUMMARY")
  /\ classify_role (PStr (PyStr.lower "SUMMARY")) = classify_role (PStr "SUMMARY").
Proof.
  apply role_ignores_padding_and_case; vm_compute; reflexivity.
Defined.

(** X18 (witness): "Exploit" after the summary heading. *)
Lemma banned_text_is_never_rescued_witness :
  _sanitize_summary_output
    (PStr (("Engagement Summary (Public Demo Safe)" +:+ nl) +:+ "Exploit"
           +:+ " details follow."))
  = Ok _summary_safe_template.
Proof.
  apply (banned_text_is_never_rescued
           ("Engagement Summary (Public Demo Safe)" +:+ nl) "Exploit"
           " details follow." "exploit");
    [vm_compute; reflexivity | simpl; tauto].
Defined.

(** * The chat page *)

Section ReconUrl.

Lemma rstrip_chars_app_one p s c :
  p c = true -> rstrip_chars p (s +:+ String c "") = rstrip_chars p s.
Proof.
  intros Hc. induction s as [|d s IH].
  - simpl. rewrite Hc. reflexivity.
  - rewrite app_cons. simpl. rewrite IH. reflexivity.
Qed.

Lemma rstrip_chars_split p s :
  exists dropped,
    s = rstrip_chars p s +:+ dropped
    /\ PyStr.all_chars p dropped = true
    /\ (forall z, p z = true -> PyStr.ends_with z (rstrip_chars p s) = false).
Proof.
  induction s as [|c s (dropped & Hs & Hall & Hend)]; simpl.
  - exists "". repeat split. 
  - destruct (rstrip_chars p s) as [|d r] eqn:Hr.
    + destruct (p c) eqn:Hc.
      * exists (String c dropped). rewrite app_empty_l in Hs. subst s.
        simpl. rewrite Hc, Hall. repeat split.
      * exists dropped. rewrite app_cons, <- Hs. repeat split; trivial.
        intros z Hz. simpl. apply Ascii.eqb_neq. intros ->. congruence.
    + exists dropped. rewrite app_cons, <- Hs. repeat split; trivial.
Qed.

(** X19: the recon URL does not depend on slashes at the end of the
    configured base: a base with one more slash at its end gives the same
    URL, and the URL is a stem of the base that does not end in a slash,
    followed by "/execute/recon". *)
Theorem recon_url_ignores_trailing_slashes base :
  recon_url (Some (base +:+ "/")) = recon_url (Some base)
  /\ exists stem slashes,
       recon_url (Some base) = stem +:+ "/execute/recon"
       /\ base = stem +:+ slashes
       /\ PyStr.all_chars (Ascii.eqb "/") slashes = true
       /\ PyStr.ends_with "/" stem = false.
Proof.
  unfold recon_url. simpl default. split.
  - rewrite rstrip_chars_app_one by reflexivity. reflexivity.
  - destruct (rstrip_chars_split (Ascii.eqb "/") base)
      as (slashes & Hbase & Hall & Hend).
    exists (rstrip_chars (Ascii.eqb "/") base), slashes.
    repeat split; trivial. apply Hend. reflexivity.
Qed.

End ReconUrl.

Section DisplayCallback.

Context (W : Collaborators).

Lemma returned_type now ev m :
  process_cli_event W now ev = Ok m ->
  m !! "type" = Some (PStr (message_kind ev)).
Proof.
  intros (display_name & avatar & _ & _ & Hbranch)%process_inv.
  destruct Hbranch as [[Hk Hm] | [[Hk Hm] | [Hk Hm]]]; rewrite Hk.
  - apply ai_message_inv in Hm
      as (name & content' & head & h & tool_calls & _ & _ & _ & _ & _ & ->).
    cbv zeta. destruct (Py.truthy tool_calls); by simplify_map_eq.
  - apply tool_message_inv in Hm as (parsed & head & h & _ & _ & _ & ->).
    by simplify_map_eq.
  - apply user_message_inv in Hm as (h & _ & ->). by simplify_map_eq.
Qed.

(** X20: what the display callback of the chat page does with a message of
    the processor follows the message type of the event: a tool message is
    shown as tool message, a user message is not shown at all, and the message
    of every other event, also of an unknown message type, is shown as agent
    message. *)
Theorem callback_follows_message_kind now ev m :
  process_cli_event W now ev = Ok m ->
  _display_message_callback m
  = (if String.eqb (message_kind ev) "tool" then DisplayToolMessage m
     else if String.eqb (message_kind ev) "user" then DisplayNothing
     else DisplayAgentMessage m).
Proof.
  intros Htype%returned_type. unfold _display_message_callback, Py.get_or.
  rewrite Htype.
  destruct (message_kind_cases ev) as [-> | [-> | ->]]; reflexivity.
Qed.

End DisplayCallback.

(** X20 (witness): the user event is built and then not shown. *)
Lemma callback_follows_message_kind_witness :
  exists m,
    process_cli_event sample_collaborators "1700000000.5" hello_user_event = Ok m
    /\ _display_message_callback m = DisplayNothing.
Proof.
  destruct (process_cli_event sample_collaborators "1700000000.5" hello_user_event)
    as [m|e] eqn:Hm; [|vm_compute in Hm; discriminate Hm].
  exists m. split; [reflexivity|].
  exact (callback_follows_message_kind sample_collaborators _ _ _ Hm).
Defined.

Section NewChat.

Context {World : Type} (C : ChatCollaborators World).

Implicit Types (p : Page World).

Lemma get_or_insert_ne (s : gmap string PyVal) k k' v d :
  k <> k' -> Py.get_or (<[ k := v ]> s) k' d = Py.get_or s k' d.
Proof. intros Hne. unfold Py.get_or. by rewrite lookup_insert_ne. Qed.

Lemma get_or_insert_eq (s : gmap string PyVal) k v d :
  Py.get_or (<[ k := v ]> s) k d = v.
Proof. unfold Py.get_or. by rewrite lookup_insert_eq. Qed.

(** X21: a new chat that is asked for while a workflow runs is put off.
    [_create_new_chat] then calls no manager: it sets [cancel_workflow] and
    [pending_new_chat] and shows a warning.  As long as the workflow runs the
    pending block does nothing; once [workflow_running] is false the block
    clears both flags and then runs [_finalize_new_chat]. *)
Theorem new_chat_waits_for_workflow p :
  Py.truthy (Py.get_or (session p) "workflow_running" (PBool false)) = true ->
  let waiting : gmap string PyVal :=
    <[ "pending_new_chat" := PBool true ]>
    (<[ "cancel_workflow" := PBool true ]> (session p)) in
  _create_new_chat C p
  = ({| world := world p; session := waiting; calls := calls p ++ [StWarning] |},
     Ok tt)
  /\ (forall w made,
        start_pending_new_chat C
          {| world := w; session := waiting; calls := made |}
        = ({| world := w; session := waiting; calls := made |}, Ok tt))
  /\ (forall w made,
        start_pending_new_chat C
          {| world := w;
             session := <[ "workflow_running" := PBool false ]> waiting;
             calls := made |}
        = _finalize_new_chat C
            {| world := w;
               session := <[ "cancel_workflow" := PBool false ]>
                          (<[ "pending_new_chat" := PBool false ]>
                          (<[ "workflow_running" := PBool false ]> waiting));
               calls := made |}).
Proof.
  intros Hrunning waiting. subst waiting. split; [|split].
  - unfold _create_new_chat, try_except, step_bind, session_get.
    rewrite Hrunning. reflexivity.
  - intros w made.
    unfold start_pending_new_chat, step_bind, session_get. cbn [session].
    rewrite !(get_or_insert_ne _ _ "workflow_running") by discriminate.
    rewrite Hrunning, andb_false_r. reflexivity.
  - intros w made.
    unfold start_pending_new_chat, step_bind, session_get. cbn [session].
    rewrite (get_or_insert_ne _ "workflow_running" "pending_new_chat")
      by discriminate.
    rewrite !get_or_insert_eq. reflexivity.
Qed.

(** The calls that one run of [_finalize_new_chat] adds. *)
Lemma finalize_calls p :
  exists managers_called,
    Forall (fun c => is_manager_call c = true) managers_called
    /\ match _finalize_new_chat C p with
       | (p', Ok _) =>
           calls p' = calls p ++ managers_called ++ [StSuccess]
           /\ In ClearTerminalState managers_called
       | (p', Raise _) => calls p' = calls p ++ managers_called
       end.
Proof.
  unfold _finalize_new_chat, step_bind, manager_call, st_call, step_ret.
  destruct (create_new_conversation C (world p) (session p))
    as [[w1 s1] [e1|]]; simpl.
  { exists [CreateNewConversation]. split; [repeat constructor|reflexivity]. }
  destruct (executor_reset C w1 s1) as [[w2 s2] [e2|]]; simpl.
  { exists [CreateNewConversation; ExecutorReset].
    split; [repeat constructor|]. rewrite <- app_assoc. reflexivity. }
  destruct (Py.truthy (Py.get s2 "current_model")); simpl.
  - destruct (initialize_with_model C (Py.get s2 "current_model") w2 s2)
      as [[w3 s3] [e3|]]; simpl.
    { exists [CreateNewConversation; ExecutorReset;
              InitializeWithModel (Py.get s2 "current_model")].
      split; [repeat constructor|]. rewrite <- !app_assoc. reflexivity. }
    destruct (clear_terminal_state C w3 s3) as [[w4 s4] [e4|]]; simpl.
    { exists [CreateNewConversation; ExecutorReset;
              InitializeWithModel (Py.get s2 "current_model");
              ClearTerminalState].
      split; [repeat constructor|]. rewrite <- !app_assoc. reflexivity. }
    exists [CreateNewConversation; ExecutorReset;
            InitializeWithModel (Py.get s2 "current_model");
            ClearTerminalState].
    split; [repeat constructor|]. split.
    + rewrite <- !app_assoc. reflexivity.
    + simpl. tauto.
  - destruct (clear_terminal_state C w2 s2) as [[w4 s4] [e4|]]; simpl.
    { exists [CreateNewConversation; ExecutorReset; ClearTerminalState].
      split; [repeat constructor|]. rewrite <- !app_assoc. reflexivity. }
    exists [CreateNewConversation; ExecutorReset; ClearTerminalState].
    split; [repeat constructor|]. split.
    + rewrite <- !app_assoc. reflexivity.
    + simpl. tauto.
Qed.

(** X22: [_create_new_chat] lets no [Exception] escape.  It returns, or it
    passes on an exception that is not an [Exception] (a cancellation, a stop
    of the script), and then without a message.  When no workflow runs it
    calls managers; when it returns it has shown exactly one message after
    them: the success message, after the terminal state has been cleared, or
    the error message for the [Exception] that a manager has raised. *)
Theorem create_new_chat_catches_exceptions p :
  (forall e, snd (_create_new_chat C p) = Raise e -> is_exception e = false)
  /\ (Py.truthy (Py.get_or (session p) "workflow_running" (PBool false)) = false ->
      exists managers_called,
        Forall (fun c => is_manager_call c = true) managers_called
        /\ match _create_new_chat C p with
           | (p', Ok _) =>
               exists final,
                 calls p' = calls p ++ managers_called ++ [final]
                 /\ (final = StSuccess /\ In ClearTerminalState managers_called
                     \/ exists e, final = StError e /\ is_exception e = true)
           | (p', Raise e) =>
               calls p' = calls p ++ managers_called /\ is_exception e = false
           end).
Proof.
  unfold _create_new_chat, try_except, step_bind, session_get.
  destruct (Py.truthy (Py.get_or (session p) "workflow_running" (PBool false))).
  - split; [discriminate|discriminate].
  - destruct (finalize_calls p) as (managers_called & Hall & Hcalls).
    destruct (_finalize_new_chat C p) as [p' [[]|e]].
    + split; [discriminate|]. intros _. destruct Hcalls as [Hcalls Hclear].
      exists managers_called. split; [exact Hall|].
      exists StSuccess. auto.
    + destruct (is_exception e) eqn:He.
      * split; [discriminate|]. intros _.
        exists managers_called. split; [exact Hall|].
        exists (StError e). simpl. rewrite Hcalls, <- app_assoc. eauto.
      * split; [intros e' [= <-]; exact He|]. intros _.
        exists managers_called. auto.
Qed.

End NewChat.

(** X21 (witness): a page on which a workflow runs. *)
Lemma new_chat_waits_for_workflow_witness :
  calls (fst (_create_new_chat idle_managers busy_page)) = [StWarning]
  /\ calls (fst (start_pending_new_chat idle_managers
                   (fst (_create_new_chat idle_managers busy_page)))) = [StWarning].
Proof.
  destruct (new_chat_waits_for_workflow idle_managers busy_page)
    as (Hdefer & Hidle & _); [vm_compute; reflexivity|].
  rewrite Hdefer. simpl fst. rewrite Hidle. split; reflexivity.
Defined.

(** X22 (witness): the executor cannot be reset, so the error message is
    shown; when the reset is cancelled the cancellation is passed on and no
    message is shown. *)
Lemma create_new_chat_catches_exceptions_witness :
  _create_new_chat failing_managers idle_page
  = ({| world := tt; session := session idle_page;
        calls := [CreateNewConversation; ExecutorReset;
                  StError CollaboratorError] |}, Ok tt)
  /\ (forall e,
        snd (_create_new_chat cancelled_managers idle_page) = Raise e ->
        is_exception e = false)
  /\ _create_new_chat cancelled_managers idle_page
     = ({| world := tt; session := session idle_page;
           calls := [CreateNewConversation; ExecutorReset] |},
        Raise CancelledError).
Proof.
  split; [vm_compute; reflexivity|]. split; [|vm_compute; reflexivity].
  exact (proj1 (create_new_chat_catches_exceptions cancelled_managers idle_page)).
Defined.
